(** * Googol-Server: user and bar controllers

    A shallow embedding of [server/user/user.controller.js] and
    [server/bar/bar.controller.js].  Every handler is an Express
    callback over promises returned by the Mongoose models; here a
    promise is a computation over the database that settles either
    fulfilled or rejected, and a handler maps a request and a database
    to the request context, the answer it gives ([res.json], [next],
    or nothing) and the database it leaves behind. *)

From Stdlib Require Import QArith Qround.
From stdpp Require Import gmap strings list fin_maps.

Open Scope Z_scope.
Open Scope string_scope.

(** ** Values of request bodies and query strings *)

(** The scalar JavaScript values a JSON body or a query string can put
    in a field; [JUndefined] is what reading an absent field gives. *)
Inductive JsVal :=
| JUndefined
| JNull
| JBool (b : bool)
| JNum (q : Q)
| JNaN
| JStr (s : string).

(** JavaScript's ToBoolean, as used by [if (v)]. *)
Definition truthy (v : JsVal) : bool :=
  match v with
  | JUndefined | JNull | JNaN => false
  | JBool b => b
  | JNum q => negb (Qeq_bool q 0)
  | JStr s => negb (String.eqb s "")
  end.

(** [v === s] for a string constant [s]: no coercion takes place. *)
Definition strict_eq_str (v : JsVal) (s : string) : bool :=
  match v with
  | JStr t => String.eqb t s
  | _ => false
  end.

(** A destructuring default [{ x = d } = obj]: the default is taken
    exactly when the property reads as [undefined]. *)
Definition default_to (v d : JsVal) : JsVal :=
  match v with
  | JUndefined => d
  | _ => v
  end.

(** Whether a field reads as [undefined]. *)
Definition absent (v : JsVal) : bool :=
  match v with
  | JUndefined => true
  | _ => false
  end.

(** ** Errors *)

(** [APIError] is [helpers/APIError] as the controllers construct it:
    message, HTTP status, and the public flag.  [NotFound] is the
    rejection of a get-by-id without a match, [TypeError] is what
    reading a property of [undefined] throws, and [OtherError] stands
    for whatever else the model layer or the database driver rejects
    with. *)
Inductive Error :=
| APIError (message : string) (status : Z) (isPublic : bool)
| NotFound
| TypeError
| OtherError (detail : string).

Module httpStatus.
Definition BAD_REQUEST : Z := 400.
Definition NOT_FOUND : Z := 404.
End httpStatus.

(** An application error in the sense of the error taxonomy: a fixed
    message and status chosen by the handler. *)
Definition is_APIError (e : Error) : bool :=
  match e with
  | APIError _ _ _ => true
  | _ => false
  end.

(** ** Documents *)

Definition Id := string.

Module UserDoc.
(** Modelled from the spec: the schema of [user.model.js] is not part
    of the sources; the fields are those of the data model (identity
    fields, [favTeams], [following], [followers], [followingBars],
    each a set of ids). *)
Record t := mk {
  _id : Id;
  username : JsVal;
  email : JsVal;
  password : JsVal;
  favTeams : gset Id;
  following : gset Id;
  followers : gset Id;
  followingBars : gset Id
}.

Definition with_username (v : JsVal) (u : t) : t :=
  mk (_id u) v (email u) (password u) (favTeams u)
     (following u) (followers u) (followingBars u).

Definition with_favTeams (s : gset Id) (u : t) : t :=
  mk (_id u) (username u) (email u) (password u) s
     (following u) (followers u) (followingBars u).

Definition with_following (s : gset Id) (u : t) : t :=
  mk (_id u) (username u) (email u) (password u) (favTeams u)
     s (followers u) (followingBars u).

Definition with_followers (s : gset Id) (u : t) : t :=
  mk (_id u) (username u) (email u) (password u) (favTeams u)
     (following u) s (followingBars u).

Definition with_followingBars (s : gset Id) (u : t) : t :=
  mk (_id u) (username u) (email u) (password u) (favTeams u)
     (following u) (followers u) s.
End UserDoc.

Module GeoPoint.
(** The literal [{ type: "Point", coordinates: [x, y] }]. *)
Record t := mk {
  type : string;
  coordinates : list JsVal
}.
End GeoPoint.

Module BarDoc.
(** Modelled from the spec: the schema of [bar.model.js] is not part
    of the sources; the fields are those of the data model (name,
    external place id, geolocation point, [followers]). *)
Record t := mk {
  _id : Id;
  name : JsVal;
  placeId : JsVal;
  location : option GeoPoint.t;
  followers : gset Id
}.

Definition with_followers (s : gset Id) (b : t) : t :=
  mk (_id b) (name b) (placeId b) (location b) s.
End BarDoc.

(** Modelled from the spec: the team objects of [team.service], which
    is not part of the sources: "external reference only; resolved via
    a lookup service". *)
Record Team := { team_id : Id; team_name : string }.

(** The database: one collection per entity, keyed by document id. *)
Record Db := {
  users : gmap Id UserDoc.t;
  bars : gmap Id BarDoc.t
}.

Definition set_users (f : gmap Id UserDoc.t → gmap Id UserDoc.t) (db : Db) : Db :=
  {| users := f (users db); bars := bars db |}.

Definition set_bars (f : gmap Id BarDoc.t → gmap Id BarDoc.t) (db : Db) : Db :=
  {| users := users db; bars := f (bars db) |}.

(** ** Promises *)

Inductive Settled (A : Type) :=
| Fulfilled (a : A)
| Rejected (e : Error).
Arguments Fulfilled {A} a.
Arguments Rejected {A} e.

(** A promise runs against the database and settles. *)
Definition Promise (A : Type) : Type := Db → Settled A * Db.

Definition resolve {A} (a : A) : Promise A := fun db => (Fulfilled a, db).
Definition reject {A} (e : Error) : Promise A := fun db => (Rejected e, db).

(** A promise whose settlement does not involve the database. *)
Definition settled {A} (s : Settled A) : Promise A := fun db => (s, db).

(** [p.then(f)], and [await p] followed by the rest of an async body. *)
Definition then_ {A B} (p : Promise A) (f : A → Promise B) : Promise B :=
  fun db =>
    match p db with
    | (Fulfilled a, db') => f a db'
    | (Rejected e, db') => (Rejected e, db')
    end.

(** [try { ... } catch (err) { h(err) }] around an async body. *)
Definition try_catch {A} (p : Promise A) (h : Error → Promise A) : Promise A :=
  fun db =>
    match p db with
    | (Fulfilled a, db') => (Fulfilled a, db')
    | (Rejected e, db') => h e db'
    end.

Declare Scope promise_scope.
Delimit Scope promise_scope with promise.
Notation "'await' x ':=' p 'in' k" := (then_ p (fun x => k))
  (at level 10, x name, p at level 100, k at level 200) : promise_scope.
Notation "'await_' p 'in' k" := (then_ p (fun _ => k))
  (at level 10, p at level 100, k at level 200) : promise_scope.
Open Scope promise_scope.

(** ** Requests and answers *)

Module Query.
(** [req.query]: the list parameters. *)
Record t := mk {
  limit : JsVal;
  skip : JsVal
}.
End Query.

Module Body.
(** [req.body]: the fields the handlers read, and [location], which
    [saveBar] writes into the body object it is given. *)
Record t := mk {
  username : JsVal;
  operation : JsVal;
  favTeamId : Id;
  user : Id;
  barId : Id;
  name : JsVal;
  placeId : JsVal;
  latitude : JsVal;
  longitude : JsVal;
  location : option GeoPoint.t
}.

Definition with_location (l : GeoPoint.t) (b : t) : t :=
  mk (username b) (operation b) (favTeamId b) (user b) (barId b)
     (name b) (placeId b) (latitude b) (longitude b) (Some l).
End Body.

Module Req.
(** The parts of an Express request the handlers touch: the query
    string, the JSON body, and the documents the [router.param]
    middleware attaches. *)
Record t := mk {
  query : Query.t;
  body : Body.t;
  queryUser : option UserDoc.t;
  queryBar : option BarDoc.t
}.

Definition with_query (q : Query.t) (r : t) : t :=
  mk q (body r) (queryUser r) (queryBar r).

Definition with_body (b : Body.t) (r : t) : t :=
  mk (query r) b (queryUser r) (queryBar r).

Definition with_queryUser (u : UserDoc.t) (r : t) : t :=
  mk (query r) (body r) (Some u) (queryBar r).

Definition with_queryBar (b : BarDoc.t) (r : t) : t :=
  mk (query r) (body r) (queryUser r) (Some b).
End Req.

Module FavTeams.
(** The [favTeams] property of a plain user object: the stored ids,
    or the team objects once the handler has assigned them. *)
Inductive t :=
| Ids (ids : gset Id)
| Teams (teams : list Team).
End FavTeams.

Module UserObj.
(** The plain object [user.toObject()] returns: a copy of the
    document's fields that no longer refers to the document. *)
Record t := mk {
  _id : Id;
  username : JsVal;
  email : JsVal;
  password : JsVal;
  favTeams : FavTeams.t;
  following : gset Id;
  followers : gset Id;
  followingBars : gset Id
}.

Definition with_favTeams (f : FavTeams.t) (o : t) : t :=
  mk (_id o) (username o) (email o) (password o) f
     (following o) (followers o) (followingBars o).
End UserObj.

(** What [res.json] is given. *)
Inductive Payload :=
| JsonUser (u : UserDoc.t)
| JsonUsers (us : list UserDoc.t)
| JsonUserObj (o : UserObj.t)
| JsonBar (b : BarDoc.t)
| JsonBars (bs : list BarDoc.t).

(** How a handler invocation ends: a JSON response, a call of [next]
    (with an error for the centralized responder, or without one to go
    on to the next middleware), a synchronous throw, or a rejected
    promise nobody handles. *)
Inductive Answer :=
| Json (p : Payload)
| Next (e : option Error)
| Thrown (e : Error)
| Unhandled (e : Error).

Record Outcome := {
  out_req : Req.t;
  out_answer : Answer;
  out_db : Db
}.

Definition Handler : Type := Db → Outcome.

Definition res_json (req : Req.t) (p : Payload) : Handler :=
  fun db => {| out_req := req; out_answer := Json p; out_db := db |}.

Definition next (req : Req.t) (e : option Error) : Handler :=
  fun db => {| out_req := req; out_answer := Next e; out_db := db |}.

Definition throw (req : Req.t) (e : Error) : Handler :=
  fun db => {| out_req := req; out_answer := Thrown e; out_db := db |}.

Definition unhandled (req : Req.t) (e : Error) : Handler :=
  fun db => {| out_req := req; out_answer := Unhandled e; out_db := db |}.

(** [p.then(ok).catch(err)], and [try { x = await p; ok(x) } catch (e)
    { err(e) }]: the callbacks here only answer, they do not throw. *)
Definition then_catch {A} (p : Promise A)
    (ok : A → Handler) (err : Error → Handler) : Handler :=
  fun db =>
    match p db with
    | (Fulfilled a, db') => ok a db'
    | (Rejected e, db') => err e db'
    end.

(** ** The model layer *)

Module Mongoose.
(** [doc.save()] of the framework: the document is written under its
    id and the promise fulfils with it, unless the storage layer's own
    constraints (given by [constraint]: unique indexes, schema
    validation) reject the write, which then leaves the database as it
    was. *)
Definition save_user (constraint : Db → UserDoc.t → option Error)
    (doc : UserDoc.t) : Promise UserDoc.t :=
  fun db =>
    match constraint db doc with
    | Some e => (Rejected e, db)
    | None => (Fulfilled doc, set_users <[UserDoc._id doc := doc]> db)
    end.

Definition save_bar (constraint : Db → BarDoc.t → option Error)
    (doc : BarDoc.t) : Promise BarDoc.t :=
  fun db =>
    match constraint db doc with
    | Some e => (Rejected e, db)
    | None => (Fulfilled doc, set_bars <[BarDoc._id doc := doc]> db)
    end.

(** [doc.toObject()]: a plain copy of the document's fields. *)
Definition toObject (doc : UserDoc.t) : UserObj.t :=
  UserObj.mk (UserDoc._id doc) (UserDoc.username doc) (UserDoc.email doc)
    (UserDoc.password doc) (FavTeams.Ids (UserDoc.favTeams doc))
    (UserDoc.following doc) (UserDoc.followers doc)
    (UserDoc.followingBars doc).

(** [doc.remove()] of the framework: the document stored under the id
    is deleted and the promise fulfils with the document it was called
    on, unless the storage layer (given by [fault]) fails the delete,
    which then leaves the database as it was.  No other document is
    written. *)
Definition remove_user (fault : Db → UserDoc.t → option Error)
    (doc : UserDoc.t) : Promise UserDoc.t :=
  fun db =>
    match fault db doc with
    | Some e => (Rejected e, db)
    | None => (Fulfilled doc, set_users (delete (UserDoc._id doc)) db)
    end.

Definition remove_bar (fault : Db → BarDoc.t → option Error)
    (doc : BarDoc.t) : Promise BarDoc.t :=
  fun db =>
    match fault db doc with
    | Some e => (Rejected e, db)
    | None => (Fulfilled doc, set_bars (delete (BarDoc._id doc)) db)
    end.
End Mongoose.

Module User.
(** Modelled from the spec: [User.get] of [user.model.js], which is
    not part of the sources: "get(id) fails with NotFound when no
    document matches". *)
Definition get (id : Id) : Promise UserDoc.t :=
  fun db =>
    match users db !! id with
    | Some user => (Fulfilled user, db)
    | None => (Rejected NotFound, db)
    end.

(** Modelled from the spec: [User.addFavTeam] and [User.removeFavTeam]
    of [user.model.js]: "single-sided set membership update on the
    user only"; the promise fulfils with the updated user. *)
Definition addFavTeam (userId teamId : Id) : Promise UserDoc.t :=
  fun db =>
    match users db !! userId with
    | Some user =>
        let user' := UserDoc.with_favTeams ({[teamId]} ∪ UserDoc.favTeams user) user in
        (Fulfilled user', set_users <[userId := user']> db)
    | None => (Rejected NotFound, db)
    end.

Definition removeFavTeam (userId teamId : Id) : Promise UserDoc.t :=
  fun db =>
    match users db !! userId with
    | Some user =>
        let user' := UserDoc.with_favTeams (UserDoc.favTeams user ∖ {[teamId]}) user in
        (Fulfilled user', set_users <[userId := user']> db)
    | None => (Rejected NotFound, db)
    end.

Definition add_following (id : Id) (u : UserDoc.t) : UserDoc.t :=
  UserDoc.with_following ({[id]} ∪ UserDoc.following u) u.
Definition add_follower (id : Id) (u : UserDoc.t) : UserDoc.t :=
  UserDoc.with_followers ({[id]} ∪ UserDoc.followers u) u.
Definition remove_following (id : Id) (u : UserDoc.t) : UserDoc.t :=
  UserDoc.with_following (UserDoc.following u ∖ {[id]}) u.
Definition remove_follower (id : Id) (u : UserDoc.t) : UserDoc.t :=
  UserDoc.with_followers (UserDoc.followers u ∖ {[id]}) u.
Definition add_followingBar (id : Id) (u : UserDoc.t) : UserDoc.t :=
  UserDoc.with_followingBars ({[id]} ∪ UserDoc.followingBars u) u.
Definition remove_followingBar (id : Id) (u : UserDoc.t) : UserDoc.t :=
  UserDoc.with_followingBars (UserDoc.followingBars u ∖ {[id]}) u.

(** Modelled from the spec: [User.followUser] of [user.model.js]:
    "idempotent add of targetId to actor.following AND actor to
    target.followers; fails with NotFound if target does not exist;
    fails (reported, not silently ignored) if actor == targetId". *)
Definition followUser (user : UserDoc.t) (userToBeFollowedId : Id) : Promise unit :=
  fun db =>
    if decide (UserDoc._id user = userToBeFollowedId) then
      (Rejected (OtherError "self-follow"), db)
    else
      match users db !! userToBeFollowedId with
      | None => (Rejected NotFound, db)
      | Some _ =>
          (Fulfilled (),
           set_users (fun us =>
             alter (add_following userToBeFollowedId) (UserDoc._id user)
               (alter (add_follower (UserDoc._id user)) userToBeFollowedId us)) db)
      end.

(** Modelled from the spec: [User.unfollowUser] of [user.model.js]:
    "idempotent removal from both sides; removing a non-present
    relation is a no-op, not an error". *)
Definition unfollowUser (user : UserDoc.t) (userToBeUnfollowedId : Id) : Promise unit :=
  fun db =>
    (Fulfilled (),
     set_users (fun us =>
       alter (remove_following userToBeUnfollowedId) (UserDoc._id user)
         (alter (remove_follower (UserDoc._id user)) userToBeUnfollowedId us)) db).

(** Modelled from the spec: the document methods [followBar] and
    [unfollowBar] of [user.model.js]: the user's half of the "pairing
    between user.followingBars and bar.followers". *)
Definition followBar (userDoc : UserDoc.t) (barId : Id) : Promise unit :=
  fun db =>
    (Fulfilled (),
     set_users (alter (add_followingBar barId) (UserDoc._id userDoc)) db).

Definition unfollowBar (userDoc : UserDoc.t) (barId : Id) : Promise unit :=
  fun db =>
    (Fulfilled (),
     set_users (alter (remove_followingBar barId) (UserDoc._id userDoc)) db).

(** Modelled from the spec: the constructor [new User(obj)] of
    [user.model.js] on the three fields the controller passes: the
    document has them under a new id, and no relations yet. *)
Definition new (id : Id) (username email password : JsVal) : UserDoc.t :=
  UserDoc.mk id username email password ∅ ∅ ∅ ∅.
End User.

Module Bar.
(** Modelled from the spec: [Bar.get] of [bar.model.js], which is not
    part of the sources: "get(id) fails with NotFound when no document
    matches". *)
Definition get (id : Id) : Promise BarDoc.t :=
  fun db =>
    match bars db !! id with
    | Some bar => (Fulfilled bar, db)
    | None => (Rejected NotFound, db)
    end.

Definition add_follower (id : Id) (b : BarDoc.t) : BarDoc.t :=
  BarDoc.with_followers ({[id]} ∪ BarDoc.followers b) b.
Definition remove_follower (id : Id) (b : BarDoc.t) : BarDoc.t :=
  BarDoc.with_followers (BarDoc.followers b ∖ {[id]}) b.

(** Modelled from the spec: the document methods [addFollower] and
    [removeFollower] of [bar.model.js]: the bar's half of the "pairing
    between user.followingBars and bar.followers". *)
Definition addFollower (bar : BarDoc.t) (userId : Id) : Promise unit :=
  fun db =>
    (Fulfilled (), set_bars (alter (add_follower userId) (BarDoc._id bar)) db).

Definition removeFollower (bar : BarDoc.t) (userId : Id) : Promise unit :=
  fun db =>
    (Fulfilled (), set_bars (alter (remove_follower userId) (BarDoc._id bar)) db).

(** Modelled from the spec: the constructor [new Bar(obj)] of
    [bar.model.js]: the document takes the schema's fields from the
    object it is given, under a new id and without followers. *)
Definition new (id : Id) (obj : Body.t) : BarDoc.t :=
  BarDoc.mk id (Body.name obj) (Body.placeId obj) (Body.location obj) ∅.
End Bar.

(** ** user.controller.js *)

Definition ADD : string := "add".
Definition REMOVE : string := "remove".

(** The routes run [load] before every handler of a [:userId] or
    [:barId] path, so a handler finds the document on the request;
    without it the handler's first property read of [undefined]
    throws. *)
Definition with_loaded {A} (doc : option A) (req : Req.t) (k : A → Handler) : Handler :=
  match doc with
  | Some d => k d
  | None => throw req TypeError
  end.

Module Signup.
(** The two fields of [req.body] that only the user [create] handler
    reads. *)
Record t := mk {
  email : JsVal;
  password : JsVal
}.
End Signup.

Module UserCtrl.
Section Controller.
(** What the controller requires from the modules it imports:
    [user.model], [bar.model], [team.service], [ErrorMessages].  The
    team service is a lookup outside this database: its answer
    settles without touching the collections. *)
Variable User_get : Id → Promise UserDoc.t.
Variable User_list : JsVal → JsVal → Promise (list UserDoc.t).
Variable User_addFavTeam : Id → Id → Promise UserDoc.t.
Variable User_removeFavTeam : Id → Id → Promise UserDoc.t.
Variable User_followUser : UserDoc.t → Id → Promise unit.
Variable User_unfollowUser : UserDoc.t → Id → Promise unit.
Variable user_save : UserDoc.t → Promise UserDoc.t.
Variable user_followBar : UserDoc.t → Id → Promise unit.
Variable user_unfollowBar : UserDoc.t → Id → Promise unit.
Variable Bar_get : Id → Promise BarDoc.t.
Variable bar_addFollower : BarDoc.t → Id → Promise unit.
Variable bar_removeFollower : BarDoc.t → Id → Promise unit.
Variable populateTeams : gset Id → Settled (list Team).
Variable ERROR_ON_FOLLOW_TEAM : string.
Variable ERROR_ON_UNFOLLOW_TEAM : string.
Variable ERROR_ON_FOLLOW_USER : string.
Variable ERROR_ON_UNFOLLOW_USER : string.
Variable user_remove : UserDoc.t → Promise UserDoc.t.
Variable ObjectId : Db → Id.
Variable User_followingUsers : Id → Promise (list UserDoc.t).
Variable User_followersUsers : Id → Promise (list UserDoc.t).
Variable User_followingBars : Id → Promise (list BarDoc.t).
Variable User_getFollowingBarsPromo : Id → Promise (list BarDoc.t).
Variable ERROR_GETTING_PROMO_FROM_FAVORITE_BARS : string.

(** Load user and append to req. *)
Definition load (req : Req.t) (id : Id) : Handler :=
  then_catch (User_get id)
    (fun user => next (Req.with_queryUser user req) None)
    (fun e => next req (Some e)).

(** Get user and populate his favTeams. *)
Definition get (req : Req.t) : Handler :=
  with_loaded (Req.queryUser req) req (fun user =>
    then_catch (settled (populateTeams (UserDoc.favTeams user)))
      (fun teams =>
         let userObj := Mongoose.toObject user in
         let userObj := UserObj.with_favTeams (FavTeams.Teams teams) userObj in
         res_json req (JsonUserObj userObj))
      (fun e => unhandled req e)).

(** Update existing user.  The assignment writes into the document
    the request holds. *)
Definition update (req : Req.t) : Handler :=
  with_loaded (Req.queryUser req) req (fun user =>
    let user :=
      if truthy (Body.username (Req.body req))
      then UserDoc.with_username (Body.username (Req.body req)) user
      else user in
    let req := Req.with_queryUser user req in
    then_catch (user_save user)
      (fun savedUser => res_json req (JsonUser savedUser))
      (fun e => next req (Some e))).

(** Update the favorite Teams of a User. *)
Definition updateFavTeams (req : Req.t) : Handler :=
  with_loaded (Req.queryUser req) req (fun user =>
    let teamId := Body.favTeamId (Req.body req) in
    let operation := Body.operation (Req.body req) in
    if strict_eq_str operation ADD then
      then_catch (User_addFavTeam (UserDoc._id user) teamId)
        (fun user => res_json req (JsonUser user))
        (fun err => next req (Some
           (APIError ERROR_ON_FOLLOW_TEAM httpStatus.BAD_REQUEST true)))
    else
      then_catch (User_removeFavTeam (UserDoc._id user) teamId)
        (fun user => res_json req (JsonUser user))
        (fun err => next req (Some
           (APIError ERROR_ON_UNFOLLOW_TEAM httpStatus.BAD_REQUEST true)))).

(** Add a user to the queryUser following list and vice versa. *)
Definition _followUser (user : UserDoc.t) (userToBeFollowedId : Id) : Promise UserDoc.t :=
  await_ User_followUser user userToBeFollowedId in
  User_get (UserDoc._id user).

(** Remove a user to the queryUser following list and vice versa. *)
Definition _unfollowUser (user : UserDoc.t) (userToBeUnfollowedId : Id) : Promise UserDoc.t :=
  await_ User_unfollowUser user userToBeUnfollowedId in
  User_get (UserDoc._id user).

(** Update the following of the User.  The model operations are
    given the document and read its id. *)
Definition updateFollowing (req : Req.t) : Handler :=
  with_loaded (Req.queryUser req) req (fun user =>
    let userToBeFollowedOrUnfollowedId := Body.user (Req.body req) in
    let operation := Body.operation (Req.body req) in
    if strict_eq_str operation ADD then
      then_catch (_followUser user userToBeFollowedOrUnfollowedId)
        (fun user => res_json req (JsonUser user))
        (fun err => next req (Some
           (APIError ERROR_ON_FOLLOW_USER httpStatus.BAD_REQUEST true)))
    else
      then_catch (_unfollowUser user userToBeFollowedOrUnfollowedId)
        (fun user => res_json req (JsonUser user))
        (fun err => next req (Some
           (APIError ERROR_ON_UNFOLLOW_USER httpStatus.BAD_REQUEST true)))).

(** Add a bar to the following User list and adds the user to the bar
    followers list.  Inside the async body a read of [userDoc._id] on
    a missing document rejects the promise. *)
Definition _followBar (userDoc : option UserDoc.t) (barId : Id) : Promise unit :=
  try_catch
    (await bar := Bar_get barId in
     match userDoc with
     | None => reject TypeError
     | Some userDoc =>
         await_ bar_addFollower bar (UserDoc._id userDoc) in
         user_followBar userDoc barId
     end)
    (fun err => reject err).

(** Remove the bar from the following User list and removes the user
    from the bar followers list. *)
Definition _unfollowBar (userDoc : option UserDoc.t) (barId : Id) : Promise unit :=
  try_catch
    (await bar := Bar_get barId in
     match userDoc with
     | None => reject TypeError
     | Some userDoc =>
         await_ bar_removeFollower bar (UserDoc._id userDoc) in
         user_unfollowBar userDoc barId
     end)
    (fun err => reject err).

(** Update the followingBars of the User. *)
Definition updateFollowingBars (req : Req.t) : Handler :=
  let user := Req.queryUser req in
  let barId := Body.barId (Req.body req) in
  let operation := Body.operation (Req.body req) in
  let promise :=
    if strict_eq_str operation ADD
    then _followBar user barId
    else _unfollowBar user barId in
  then_catch
    (await_ promise in
     match user with
     | None => reject TypeError
     | Some user => User_get (UserDoc._id user)
     end)
    (fun updatedUser => res_json req (JsonUser updatedUser))
    (fun err => next req (Some err)).

(** Create new user.  The document is built from three fields of the
    body. *)
Definition create (signup : Signup.t) (req : Req.t) : Handler :=
  fun db =>
    let user :=
      User.new (ObjectId db) (Body.username (Req.body req))
        (Signup.email signup) (Signup.password signup) in
    then_catch (user_save user)
      (fun savedUser => res_json req (JsonUser savedUser))
      (fun e => next req (Some e)) db.

(** Delete user. *)
Definition remove (req : Req.t) : Handler :=
  with_loaded (Req.queryUser req) req (fun user =>
    then_catch (user_remove user)
      (fun deletedUser => res_json req (JsonUser deletedUser))
      (fun e => next req (Some e))).

(** Get user following users. *)
Definition getFollowing (req : Req.t) : Handler :=
  with_loaded (Req.queryUser req) req (fun user =>
    then_catch (User_followingUsers (UserDoc._id user))
      (fun user => res_json req (JsonUsers user))
      (fun e => next req (Some e))).

(** Get user followers. *)
Definition getFollowers (req : Req.t) : Handler :=
  with_loaded (Req.queryUser req) req (fun user =>
    then_catch (User_followersUsers (UserDoc._id user))
      (fun user => res_json req (JsonUsers user))
      (fun e => next req (Some e))).

(** Get user following bars. *)
Definition getFollowingBars (req : Req.t) : Handler :=
  with_loaded (Req.queryUser req) req (fun user =>
    then_catch (User_followingBars (UserDoc._id user))
      (fun bar => res_json req (JsonBars bar))
      (fun e => next req (Some e))).

(** The promotions of the bars a user follows.  The whole body is
    inside the [try]: the read of [user._id] on a missing document is
    caught like a rejection of the model. *)
Definition getFollowingBarsPromo (req : Req.t) : Handler :=
  then_catch
    (match Req.queryUser req with
     | None => reject TypeError
     | Some user => User_getFollowingBarsPromo (UserDoc._id user)
     end)
    (fun followedBars => res_json req (JsonBars followedBars))
    (fun err => next req (Some
       (APIError ERROR_GETTING_PROMO_FROM_FAVORITE_BARS
          httpStatus.BAD_REQUEST true))).

(** Get user list. *)
Definition list (req : Req.t) : Handler :=
  let limit := default_to (Query.limit (Req.query req)) (JNum 50) in
  let skip := default_to (Query.skip (Req.query req)) (JNum 0) in
  then_catch (User_list limit skip)
    (fun users => res_json req (JsonUsers users))
    (fun e => next req (Some e)).
End Controller.
End UserCtrl.

(** ** bar.controller.js *)

Module BarCtrl.
Section Controller.
(** What the controller requires from [bar.model]; [ObjectId] is the
    id the framework gives a new document. *)
Variable Bar_get : Id → Promise BarDoc.t.
Variable Bar_list : JsVal → JsVal → Promise (list BarDoc.t).
Variable bar_save : BarDoc.t → Promise BarDoc.t.
Variable ObjectId : Db → Id.
Variable bar_remove : BarDoc.t → Promise BarDoc.t.

(** Load bar and append to req. *)
Definition load (req : Req.t) (id : Id) : Handler :=
  then_catch (Bar_get id)
    (fun bar => next (Req.with_queryBar bar req) None)
    (fun e => next req (Some e)).

(** Save a new bar to the data base.  The location is written into
    the object the caller passed, which is returned next to the
    promise. *)
Definition saveBar (bar : Body.t) : Body.t * Promise BarDoc.t :=
  let bar :=
    Body.with_location
      (GeoPoint.mk "Point" [Body.longitude bar; Body.latitude bar]) bar in
  (bar, fun db =>
          let createdBar := Bar.new (ObjectId db) bar in
          bar_save createdBar db).

(** Create new bar. *)
Definition create (req : Req.t) : Handler :=
  let '(body, promise) := saveBar (Req.body req) in
  let req := Req.with_body body req in
  then_catch promise
    (fun savedBar => res_json req (JsonBar savedBar))
    (fun e => next req (Some e)).

(** Delete bar. *)
Definition remove (req : Req.t) : Handler :=
  with_loaded (Req.queryBar req) req (fun bar =>
    then_catch (bar_remove bar)
      (fun deletedBar => res_json req (JsonBar deletedBar))
      (fun e => next req (Some e))).

(** Get bar list. *)
Definition list (req : Req.t) : Handler :=
  let limit := default_to (Query.limit (Req.query req)) (JNum 50) in
  let skip := default_to (Query.skip (Req.query req)) (JNum 0) in
  then_catch (Bar_list limit skip)
    (fun bars => res_json req (JsonBars bars))
    (fun e => next req (Some e)).
End Controller.
End BarCtrl.

(** ** user.route.js *)

(** A handler or middleware of a route. *)
Definition Middleware : Type := Req.t → Handler.

(** The handlers of a matched route run in order: one that calls
    [next()] hands the request on, any other end of a handler ends the
    request. *)
Fixpoint chain (stack : list Middleware) (req : Req.t) : Handler :=
  match stack with
  | [] => next req None
  | m :: stack' =>
      fun db =>
        let out := m req db in
        match out_answer out with
        | Next None => chain stack' (out_req out) (out_db out)
        | _ => out
        end
  end.

(** Validation and authentication look at the request and call
    [next()] or [next(err)]. *)
Definition Guard : Type := Req.t → option Error.

Definition guard (g : Guard) : Middleware :=
  fun req => next req (g req).

(** The first guard of a list that objects, and its error. *)
Fixpoint first_error (gs : list Guard) (req : Req.t) : option Error :=
  match gs with
  | [] => None
  | g :: gs' =>
      match g req with
      | Some e => Some e
      | None => first_error gs' req
      end
  end.

Module UserRoute.
Inductive Method := GET | POST | PUT | DELETE.

(** The paths of the router: [/], [/:userId], [/:userId/favTeam]. *)
Inductive Path :=
| Root
| UserId (userId : Id)
| FavTeam (userId : Id).

(** The [:userId] parameter of a path. *)
Definition userId_of (p : Path) : option Id :=
  match p with
  | Root => None
  | UserId userId | FavTeam userId => Some userId
  end.

Section Router.
Variable User_get : Id → Promise UserDoc.t.
Variable User_list : JsVal → JsVal → Promise (list UserDoc.t).
Variable User_addFavTeam : Id → Id → Promise UserDoc.t.
Variable User_removeFavTeam : Id → Id → Promise UserDoc.t.
Variable user_save : UserDoc.t → Promise UserDoc.t.
Variable user_remove : UserDoc.t → Promise UserDoc.t.
Variable ObjectId : Db → Id.
Variable populateTeams : gset Id → Settled (list Team).
Variable ERROR_ON_FOLLOW_TEAM : string.
Variable ERROR_ON_UNFOLLOW_TEAM : string.
(** [validate(paramValidation.createUser)] and its two siblings,
    [expressJwt({ secret })] and [authCtrl.checkUser]. *)
Variable validate_createUser : Guard.
Variable validate_updateUser : Guard.
Variable validate_updateFavTeams : Guard.
Variable expressJwt : Guard.
Variable checkUser : Guard.
Variable signup : Signup.t.

(** [router.param('userId', userCtrl.load)]: the paths with the
    parameter load the user before anything else of the route runs. *)
Definition params (p : Path) : list Middleware :=
  match p with
  | Root => []
  | UserId userId | FavTeam userId =>
      [fun req => UserCtrl.load User_get req userId]
  end.

(** The middleware each route lists before its handler. *)
Definition guards (m : Method) (p : Path) : list Guard :=
  match p, m with
  | Root, POST => [validate_createUser]
  | UserId _, PUT => [validate_updateUser; expressJwt; checkUser]
  | UserId _, DELETE => [expressJwt; checkUser]
  | FavTeam _, PUT => [validate_updateFavTeams; expressJwt; checkUser]
  | _, _ => []
  end.

(** The handler of each route; a method the path does not declare has
    none. *)
Definition handler (m : Method) (p : Path) : option Middleware :=
  match p, m with
  | Root, GET => Some (UserCtrl.list User_list)
  | Root, POST => Some (UserCtrl.create user_save ObjectId signup)
  | UserId _, GET => Some (UserCtrl.get populateTeams)
  | UserId _, PUT => Some (UserCtrl.update user_save)
  | UserId _, DELETE => Some (UserCtrl.remove user_remove)
  | FavTeam _, PUT =>
      Some (UserCtrl.updateFavTeams User_addFavTeam User_removeFavTeam
              ERROR_ON_FOLLOW_TEAM ERROR_ON_UNFOLLOW_TEAM)
  | _, _ => None
  end.

(** A request on the router. *)
Definition dispatch (m : Method) (p : Path) (req : Req.t) : option Handler :=
  match handler m p with
  | Some h => Some (chain (params p ++ (guard <$> guards m p) ++ [h]) req)
  | None => None
  end.
End Router.
End UserRoute.

(** ** Sample data *)

Module Sample.
Definition alice : UserDoc.t :=
  UserDoc.mk "u1" (JStr "alice") (JStr "a@x.com") (JStr "p") ∅ ∅ ∅ ∅.
Definition bob : UserDoc.t :=
  UserDoc.mk "u2" (JStr "bob") (JStr "b@x.com") (JStr "q") ∅ ∅ ∅ ∅.
Definition pub : BarDoc.t :=
  BarDoc.mk "b1" (JStr "Pub") (JStr "p1")
    (Some (GeoPoint.mk "Point" [JNum (-73); JNum 40])) ∅.

Definition db : Db :=
  {| users := <["u1" := alice]> (<["u2" := bob]> ∅);
     bars := <["b1" := pub]> ∅ |}.

(** A request on [/users/u1/...] after [load], with the body given. *)
Definition body (operation : JsVal) (target : Id) : Body.t :=
  Body.mk JUndefined operation target target target
    JUndefined JUndefined JUndefined JUndefined None.
Definition req (operation : JsVal) (target : Id) : Req.t :=
  Req.mk (Query.mk JUndefined JUndefined) (body operation target)
    (Some alice) None.

(** The body of [POST /bars] for a second bar of the same name and
    place id as [pub]. *)
Definition bar_body : Body.t :=
  Body.mk JUndefined JUndefined "" "" ""
    (JStr "Pub") (JStr "p1") (JNum 40) (JNum (-73)) None.
Definition bar_req : Req.t :=
  Req.mk (Query.mk JUndefined JUndefined) bar_body None None.

Definition no_constraint {A} : Db → A → option Error := fun _ _ => None.

(** A storage layer that is down: every write of the model rejects. *)
Definition down {A B} : A → B → Promise unit :=
  fun _ _ => reject (OtherError "MongoNetworkError").
Definition down' {A B} : A → B → Promise unit :=
  fun _ _ => reject (OtherError "MongoTimeoutError").

(** A page of a collection given as a list, for a limit and a skip
    that are whole numbers. *)
Definition page {A} (all : list A) (limit skip : JsVal) : Promise (list A) :=
  match limit, skip with
  | JNum l, JNum s =>
      resolve (take (Z.to_nat (Qfloor l)) (drop (Z.to_nat (Qfloor s)) all))
  | _, _ => reject (OtherError "CastError")
  end.

Definition teams_of (ids : gset Id) : Settled (list Team) :=
  Fulfilled ((fun id => {| team_id := id; team_name := "team " ++ id |}) <$> elements ids).

(** Bob follows alice and the pub: the references are on both sides. *)
Definition alice_followed : UserDoc.t :=
  UserDoc.with_followers {["u2"]} alice.
Definition bob_following : UserDoc.t :=
  UserDoc.with_followingBars {["b1"]} (UserDoc.with_following {["u1"]} bob).
Definition pub_followed : BarDoc.t :=
  BarDoc.with_followers {["u2"]} pub.
Definition db_followed : Db :=
  {| users := <["u1" := alice_followed]> (<["u2" := bob_following]> ∅);
     bars := <["b1" := pub_followed]> ∅ |}.

Definition deny : Guard := fun _ => Some (APIError "Unauthorized" 401 true).
Definition allow : Guard := fun _ => None.
Definition signup : Signup.t := Signup.mk (JStr "c@x.com") (JStr "r").
End Sample.

(** The two-sided removal of [User.unfollowUser] on the collection. *)
Definition unfollow_both (a b : Id) (us : gmap Id UserDoc.t) : gmap Id UserDoc.t :=
  alter (User.remove_following b) a (alter (User.remove_follower a) b us).

(** * Properties *)

(** ** Basic facts *)

Lemma with_queryUser_same (req : Req.t) (user : UserDoc.t) :
  Req.queryUser req = Some user → Req.with_queryUser user req = req.
Proof. destruct req as [q b qu qb]; simpl; intros ->; reflexivity. Qed.

Lemma strict_eq_str_true (v : JsVal) (s : string) :
  strict_eq_str v s = true ↔ v = JStr s.
Proof.
  destruct v; simpl; try (split; [discriminate | discriminate]).
  rewrite String.eqb_eq. split; [intros -> | intros [= ->]]; reflexivity.
Qed.

Lemma strict_eq_str_false (v : JsVal) (s : string) :
  strict_eq_str v s = false ↔ v ≠ JStr s.
Proof.
  rewrite <- strict_eq_str_true. destruct (strict_eq_str v s); split; congruence.
Qed.

Lemma then_catch_fulfilled {A} (p : Promise A) ok err db a db' :
  p db = (Fulfilled a, db') → then_catch p ok err db = ok a db'.
Proof. unfold then_catch; intros ->; reflexivity. Qed.

Lemma then_catch_rejected {A} (p : Promise A) ok err db e db' :
  p db = (Rejected e, db') → then_catch p ok err db = err e db'.
Proof. unfold then_catch; intros ->; reflexivity. Qed.

Lemma then_fulfilled {A B} (p : Promise A) (f : A → Promise B) db a db' :
  p db = (Fulfilled a, db') → then_ p f db = f a db'.
Proof. unfold then_; intros ->; reflexivity. Qed.

Lemma then_rejected {A B} (p : Promise A) (f : A → Promise B) db e db' :
  p db = (Rejected e, db') → then_ p f db = (Rejected e, db').
Proof. unfold then_; intros ->; reflexivity. Qed.

(** A [try] whose handler rethrows is the body itself. *)
Lemma try_catch_rethrow {A} (p : Promise A) db :
  try_catch p (fun err => reject err) db = p db.
Proof. unfold try_catch, reject. destruct (p db) as [[a|e] db']; reflexivity. Qed.

(** ** Self-follow *)

(** The handler has no guard of its own against a self-follow: with a
    model that accepts it, the request is answered with the user. *)
Lemma updateFollowing_defers_to_model (msgF msgU : string) :
  let accept : UserDoc.t → Id → Promise unit := fun _ _ => resolve () in
  out_answer
    (UserCtrl.updateFollowing User.get accept accept msgF msgU
       (Sample.req (JStr "add") "u1") Sample.db)
  = Json (JsonUser Sample.alice).
Proof. reflexivity. Qed.

(** C1. Following oneself fails and the failure is reported: the model
    rejects [followUser(A, A)], so [_followUser] rejects, and the
    handler hands an error to [next] instead of answering with the
    user; nothing is written. *)
Theorem self_follow_reported (msgF msgU : string) (req : Req.t)
    (a : UserDoc.t) (db : Db)
    (Hload : Req.queryUser req = Some a)
    (Hop : Body.operation (Req.body req) = JStr ADD)
    (Hself : Body.user (Req.body req) = UserDoc._id a) :
  (∃ e, UserCtrl._followUser User.get User.followUser a (UserDoc._id a) db
        = (Rejected e, db))
  ∧ UserCtrl.updateFollowing User.get User.followUser User.unfollowUser
      msgF msgU req db
    = {| out_req := req;
         out_answer := Next (Some (APIError msgF httpStatus.BAD_REQUEST true));
         out_db := db |}.
Proof.
  assert (Hrej : User.followUser a (UserDoc._id a) db
                 = (Rejected (OtherError "self-follow"), db)).
  { unfold User.followUser. rewrite decide_True by reflexivity. reflexivity. }
  split.
  - eexists. unfold UserCtrl._followUser. apply then_rejected, Hrej.
  - unfold UserCtrl.updateFollowing, with_loaded. rewrite Hload, Hop, Hself.
    rewrite (proj2 (strict_eq_str_true (JStr ADD) ADD) eq_refl).
    erewrite then_catch_rejected; [reflexivity |].
    unfold UserCtrl._followUser. apply then_rejected, Hrej.
Qed.

Lemma self_follow_reported_witness :
  out_answer
    (UserCtrl.updateFollowing User.get User.followUser User.unfollowUser
       "follow failed" "unfollow failed" (Sample.req (JStr "add") "u1") Sample.db)
  = Next (Some (APIError "follow failed" 400 true)).
Proof.
  pose proof (self_follow_reported "follow failed" "unfollow failed"
                (Sample.req (JStr "add") "u1") Sample.alice Sample.db
                eq_refl eq_refl eq_refl) as [_ H].
  rewrite H. reflexivity.
Defined.

(** ** Loading by id *)

(** C4. For an id without a document, get-by-id rejects with NotFound,
    for users and for bars, and the [load] middleware passes that error
    to [next] and attaches nothing to the request, so the route's
    handler is not run on an absent document. *)
Theorem load_missing_not_found (req : Req.t) (userId barId : Id) (db : Db)
    (Huser : users db !! userId = None)
    (Hbar : bars db !! barId = None) :
  (User.get userId db = (Rejected NotFound, db)
   ∧ UserCtrl.load User.get req userId db
     = {| out_req := req; out_answer := Next (Some NotFound); out_db := db |})
  ∧ (Bar.get barId db = (Rejected NotFound, db)
     ∧ BarCtrl.load Bar.get req barId db
       = {| out_req := req; out_answer := Next (Some NotFound); out_db := db |}).
Proof.
  assert (Hu : User.get userId db = (Rejected NotFound, db))
    by (unfold User.get; rewrite Huser; reflexivity).
  assert (Hb : Bar.get barId db = (Rejected NotFound, db))
    by (unfold Bar.get; rewrite Hbar; reflexivity).
  repeat split; try assumption.
  - unfold UserCtrl.load. erewrite then_catch_rejected by exact Hu. reflexivity.
  - unfold BarCtrl.load. erewrite then_catch_rejected by exact Hb. reflexivity.
Qed.

Lemma load_missing_not_found_witness :
  out_answer (UserCtrl.load User.get Sample.bar_req "u9" Sample.db)
    = Next (Some NotFound)
  ∧ out_answer (BarCtrl.load Bar.get Sample.bar_req "b9" Sample.db)
    = Next (Some NotFound).
Proof.
  destruct (load_missing_not_found Sample.bar_req "u9" "b9" Sample.db
              eq_refl eq_refl) as [[_ Hu] [_ Hb]].
  rewrite Hu, Hb. split; reflexivity.
Defined.

(** With a document under the id, [load] attaches it and goes on. *)
Lemma load_found (req : Req.t) (userId : Id) (user : UserDoc.t) (db : Db) :
  users db !! userId = Some user →
  UserCtrl.load User.get req userId db
  = {| out_req := Req.with_queryUser user req; out_answer := Next None;
       out_db := db |}.
Proof.
  intros H. unfold UserCtrl.load, then_catch, User.get. rewrite H. reflexivity.
Qed.

(** ** Errors of the follow handlers *)

(** The bar handler passes on the error it caught: with the bar's
    follower update failing in the storage layer, what reaches [next]
    is that storage error, which is not an application error and
    changes with the failure. *)
Lemma updateFollowingBars_forwards_raw_error :
  out_answer
    (UserCtrl.updateFollowingBars User.get User.followBar User.unfollowBar
       Bar.get Sample.down Sample.down (Sample.req (JStr "add") "b1") Sample.db)
  = Next (Some (OtherError "MongoNetworkError"))
  ∧ is_APIError (OtherError "MongoNetworkError") = false
  ∧ out_answer
      (UserCtrl.updateFollowingBars User.get User.followBar User.unfollowBar
         Bar.get Sample.down' Sample.down' (Sample.req (JStr "add") "b1") Sample.db)
    = Next (Some (OtherError "MongoTimeoutError")).
Proof. repeat split; vm_compute; reflexivity. Qed.

(** C3 (amended). In the favourite-team and user-follow handlers, on
    the add branch and on the remove branch alike, whenever the model
    operation rejects, with whatever error, [next] receives an
    application error whose message is fixed by the handler and the
    branch, whose status is 400 and whose public flag is set. *)
Theorem follow_errors_wrapped
    (User_get : Id → Promise UserDoc.t)
    (User_addFavTeam User_removeFavTeam : Id → Id → Promise UserDoc.t)
    (User_followUser User_unfollowUser : UserDoc.t → Id → Promise unit)
    (msgFT msgUT msgFU msgUU : string)
    (req : Req.t) (user : UserDoc.t) (db : Db)
    (Hload : Req.queryUser req = Some user) :
  let operation := Body.operation (Req.body req) in
  let add := strict_eq_str operation ADD in
  let wrapped (msg : string) (db' : Db) :=
    {| out_req := req;
       out_answer := Next (Some (APIError msg httpStatus.BAD_REQUEST true));
       out_db := db' |} in
  (∀ e db',
     (if add then User_addFavTeam else User_removeFavTeam)
       (UserDoc._id user) (Body.favTeamId (Req.body req)) db = (Rejected e, db') →
     UserCtrl.updateFavTeams User_addFavTeam User_removeFavTeam msgFT msgUT req db
     = wrapped (if add then msgFT else msgUT) db')
  ∧ (∀ e db',
       (if add
        then UserCtrl._followUser User_get User_followUser
        else UserCtrl._unfollowUser User_get User_unfollowUser)
         user (Body.user (Req.body req)) db = (Rejected e, db') →
       UserCtrl.updateFollowing User_get User_followUser User_unfollowUser
         msgFU msgUU req db
       = wrapped (if add then msgFU else msgUU) db').
Proof.
  intros operation add wrapped. subst wrapped.
  unfold UserCtrl.updateFavTeams, UserCtrl.updateFollowing, with_loaded.
  rewrite Hload. fold operation. fold add.
  split; intros e db' H; destruct add;
    erewrite then_catch_rejected by exact H; reflexivity.
Qed.

Lemma follow_errors_wrapped_witness :
  out_answer
    (UserCtrl.updateFollowing User.get User.followUser User.unfollowUser
       "follow failed" "unfollow failed" (Sample.req (JStr "add") "u9") Sample.db)
  = Next (Some (APIError "follow failed" 400 true)).
Proof.
  destruct (follow_errors_wrapped User.get User.addFavTeam User.removeFavTeam
              User.followUser User.unfollowUser
              "fav failed" "unfav failed" "follow failed" "unfollow failed"
              (Sample.req (JStr "add") "u9") Sample.alice Sample.db eq_refl)
    as [_ H].
  rewrite (H NotFound Sample.db eq_refl). reflexivity.
Defined.

(** ** The operation field *)

(** C9. In the three update handlers an operation other than the string
    "add" takes the remove branch: the handler is the remove operation
    followed by its answer, whatever the add operation would do; no
    value is turned down as an invalid operation. *)
Theorem non_add_operation_removes
    (User_get : Id → Promise UserDoc.t)
    (User_addFavTeam User_removeFavTeam : Id → Id → Promise UserDoc.t)
    (User_followUser User_unfollowUser : UserDoc.t → Id → Promise unit)
    (user_followBar user_unfollowBar : UserDoc.t → Id → Promise unit)
    (Bar_get : Id → Promise BarDoc.t)
    (bar_addFollower bar_removeFollower : BarDoc.t → Id → Promise unit)
    (msgFT msgUT msgFU msgUU : string)
    (req : Req.t) (user : UserDoc.t)
    (Hload : Req.queryUser req = Some user)
    (Hop : Body.operation (Req.body req) ≠ JStr "add") :
  UserCtrl.updateFavTeams User_addFavTeam User_removeFavTeam msgFT msgUT req
  = then_catch
      (User_removeFavTeam (UserDoc._id user) (Body.favTeamId (Req.body req)))
      (fun user => res_json req (JsonUser user))
      (fun _ => next req (Some (APIError msgUT httpStatus.BAD_REQUEST true)))
  ∧ UserCtrl.updateFollowing User_get User_followUser User_unfollowUser
      msgFU msgUU req
    = then_catch
        (UserCtrl._unfollowUser User_get User_unfollowUser user
           (Body.user (Req.body req)))
        (fun user => res_json req (JsonUser user))
        (fun _ => next req (Some (APIError msgUU httpStatus.BAD_REQUEST true)))
  ∧ UserCtrl.updateFollowingBars User_get user_followBar user_unfollowBar
      Bar_get bar_addFollower bar_removeFollower req
    = then_catch
        (await_ UserCtrl._unfollowBar user_unfollowBar Bar_get bar_removeFollower
                  (Some user) (Body.barId (Req.body req)) in
         User_get (UserDoc._id user))
        (fun updatedUser => res_json req (JsonUser updatedUser))
        (fun err => next req (Some err)).
Proof.
  apply strict_eq_str_false in Hop.
  unfold UserCtrl.updateFavTeams, UserCtrl.updateFollowing,
    UserCtrl.updateFollowingBars, with_loaded.
  rewrite Hload. unfold ADD. rewrite Hop. repeat split.
Qed.

Lemma non_add_operation_removes_witness :
  let req := Req.with_queryUser
               (UserDoc.with_favTeams {["t1"]} Sample.alice)
               (Sample.req (JStr "Add") "t1") in
  let db := set_users <["u1" := UserDoc.with_favTeams {["t1"]} Sample.alice]> Sample.db in
  out_answer
    (UserCtrl.updateFavTeams User.addFavTeam User.removeFavTeam
       "fav failed" "unfav failed" req db)
  = Json (JsonUser Sample.alice).
Proof.
  intros req db.
  destruct (non_add_operation_removes User.get User.addFavTeam User.removeFavTeam
              User.followUser User.unfollowUser User.followBar User.unfollowBar
              Bar.get Bar.addFollower Bar.removeFollower
              "fav failed" "unfav failed" "follow failed" "unfollow failed"
              req (UserDoc.with_favTeams {["t1"]} Sample.alice)
              eq_refl ltac:(discriminate)) as [H _].
  rewrite H. vm_compute. reflexivity.
Defined.

(** ** Following and unfollowing a bar *)

Lemma followBar_run (userDoc : UserDoc.t) (barId : Id) (db : Db) :
  UserCtrl._followBar User.followBar Bar.get Bar.addFollower (Some userDoc) barId db
  = match bars db !! barId with
    | Some bar =>
        (Fulfilled (),
         set_users (alter (User.add_followingBar barId) (UserDoc._id userDoc))
           (set_bars (alter (Bar.add_follower (UserDoc._id userDoc)) (BarDoc._id bar)) db))
    | None => (Rejected NotFound, db)
    end.
Proof.
  unfold UserCtrl._followBar. rewrite try_catch_rethrow.
  unfold then_, Bar.get. destruct (bars db !! barId); reflexivity.
Qed.

Lemma unfollowBar_run (userDoc : UserDoc.t) (barId : Id) (db : Db) :
  UserCtrl._unfollowBar User.unfollowBar Bar.get Bar.removeFollower (Some userDoc) barId db
  = match bars db !! barId with
    | Some bar =>
        (Fulfilled (),
         set_users (alter (User.remove_followingBar barId) (UserDoc._id userDoc))
           (set_bars (alter (Bar.remove_follower (UserDoc._id userDoc)) (BarDoc._id bar)) db))
    | None => (Rejected NotFound, db)
    end.
Proof.
  unfold UserCtrl._unfollowBar. rewrite try_catch_rethrow.
  unfold then_, Bar.get. destruct (bars db !! barId); reflexivity.
Qed.

Lemma unfollowUser_run (user : UserDoc.t) (id : Id) (db : Db) :
  UserCtrl._unfollowUser User.get User.unfollowUser user id db
  = let db' :=
      set_users (fun us =>
        alter (User.remove_following id) (UserDoc._id user)
          (alter (User.remove_follower (UserDoc._id user)) id us)) db in
    match users db' !! UserDoc._id user with
    | Some u => (Fulfilled u, db')
    | None => (Rejected NotFound, db')
    end.
Proof. reflexivity. Qed.

(** C2. Following an existing bar as a stored user succeeds and leaves
    the bar's id in the user's followingBars and the user's id in the
    bar's followers.  And with any model, when the bar's update or the
    user's update rejects, [_followBar] rejects with that error, and a
    rejection of [_followBar] reaches the caller through [next]. *)
Theorem followBar_both_sides_or_failed
    (userDoc u0 : UserDoc.t) (bar : BarDoc.t) (barId : Id) (db : Db)
    (Huser : users db !! UserDoc._id userDoc = Some u0)
    (Hbar : bars db !! barId = Some bar)
    (Hid : BarDoc._id bar = barId) :
  (∃ db',
     UserCtrl._followBar User.followBar Bar.get Bar.addFollower
       (Some userDoc) barId db = (Fulfilled (), db')
     ∧ (∃ u', users db' !! UserDoc._id userDoc = Some u'
              ∧ barId ∈ UserDoc.followingBars u')
     ∧ (∃ b', bars db' !! barId = Some b'
              ∧ UserDoc._id userDoc ∈ BarDoc.followers b'))
  ∧ (∀ (User_get : Id → Promise UserDoc.t)
       (user_followBar user_unfollowBar : UserDoc.t → Id → Promise unit)
       (Bar_get : Id → Promise BarDoc.t)
       (bar_addFollower bar_removeFollower : BarDoc.t → Id → Promise unit)
       (req : Req.t) (db0 db1 : Db) (b : BarDoc.t) (e : Error),
       let follow :=
         UserCtrl._followBar user_followBar Bar_get bar_addFollower
           (Some userDoc) (Body.barId (Req.body req)) in
       Bar_get (Body.barId (Req.body req)) db0 = (Fulfilled b, db1) →
       (∀ db2, bar_addFollower b (UserDoc._id userDoc) db1 = (Rejected e, db2) →
               follow db0 = (Rejected e, db2))
       ∧ (∀ db2 db3,
            bar_addFollower b (UserDoc._id userDoc) db1 = (Fulfilled (), db2) →
            user_followBar userDoc (Body.barId (Req.body req)) db2 = (Rejected e, db3) →
            follow db0 = (Rejected e, db3))
       ∧ (∀ db2,
            Req.queryUser req = Some userDoc →
            Body.operation (Req.body req) = JStr ADD →
            follow db0 = (Rejected e, db2) →
            UserCtrl.updateFollowingBars User_get user_followBar user_unfollowBar
              Bar_get bar_addFollower bar_removeFollower req db0
            = {| out_req := req; out_answer := Next (Some e); out_db := db2 |})).
Proof.
  split.
  - eexists. rewrite followBar_run, Hbar. split; [reflexivity |]. simpl. split.
    + rewrite lookup_alter_eq, Huser. simpl. eexists. split; [reflexivity |].
      simpl. set_solver.
    + rewrite Hid, lookup_alter_eq, Hbar. simpl. eexists. split; [reflexivity |].
      simpl. set_solver.
  - intros User_get user_followBar user_unfollowBar Bar_get bar_addFollower
      bar_removeFollower req db0 db1 b e follow Hget.
    subst follow. unfold UserCtrl._followBar. repeat split.
    + intros db2 Hadd. rewrite try_catch_rethrow.
      erewrite then_fulfilled by exact Hget. apply then_rejected, Hadd.
    + intros db2 db3 Hadd Hfollow. rewrite try_catch_rethrow.
      erewrite then_fulfilled by exact Hget.
      erewrite then_fulfilled by exact Hadd. exact Hfollow.
    + intros db2 Hload Hop Hrej.
      unfold UserCtrl.updateFollowingBars. rewrite Hload, Hop.
      rewrite (proj2 (strict_eq_str_true (JStr ADD) ADD) eq_refl).
      erewrite then_catch_rejected; [reflexivity |].
      apply then_rejected, Hrej.
Qed.

Lemma followBar_both_sides_or_failed_witness :
  (∃ db',
     UserCtrl._followBar User.followBar Bar.get Bar.addFollower
       (Some Sample.alice) "b1" Sample.db = (Fulfilled (), db')
     ∧ (∃ u', users db' !! "u1" = Some u' ∧ "b1" ∈ UserDoc.followingBars u')
     ∧ (∃ b', bars db' !! "b1" = Some b' ∧ "u1" ∈ BarDoc.followers b'))
  ∧ out_answer
      (UserCtrl.updateFollowingBars User.get Sample.down User.unfollowBar
         Bar.get Bar.addFollower Bar.removeFollower
         (Sample.req (JStr "add") "b1") Sample.db)
    = Next (Some (OtherError "MongoNetworkError")).
Proof.
  destruct (followBar_both_sides_or_failed Sample.alice Sample.alice Sample.pub
              "b1" Sample.db eq_refl eq_refl eq_refl) as [Hok Hfail].
  split; [exact Hok |].
  destruct (Hfail User.get Sample.down User.unfollowBar Bar.get Bar.addFollower
              Bar.removeFollower (Sample.req (JStr "add") "b1")
              Sample.db Sample.db Sample.pub (OtherError "MongoNetworkError")
              eq_refl) as (_ & Hstep & Hnext).
  rewrite (Hnext _ eq_refl eq_refl (Hstep _ _ eq_refl eq_refl)). reflexivity.
Defined.

(** ** Unfollowing twice *)

Lemma with_following_same (u : UserDoc.t) :
  UserDoc.with_following (UserDoc.following u) u = u.
Proof. destruct u; reflexivity. Qed.

Lemma with_followers_same (u : UserDoc.t) :
  UserDoc.with_followers (UserDoc.followers u) u = u.
Proof. destruct u; reflexivity. Qed.

Lemma with_followingBars_same (u : UserDoc.t) :
  UserDoc.with_followingBars (UserDoc.followingBars u) u = u.
Proof. destruct u; reflexivity. Qed.

Lemma bar_with_followers_same (b : BarDoc.t) :
  BarDoc.with_followers (BarDoc.followers b) b = b.
Proof. destruct b; reflexivity. Qed.

Lemma remove_absent (s : gset Id) (x : Id) : x ∉ s → s ∖ {[x]} = s.
Proof. intros H. apply difference_disjoint_L, disjoint_singleton_r, H. Qed.

Lemma remove_twice (s : gset Id) (x : Id) : s ∖ {[x]} ∖ {[x]} = s ∖ {[x]}.
Proof. apply difference_twice_L. Qed.

Lemma remove_following_idem (x : Id) (u : UserDoc.t) :
  User.remove_following x (User.remove_following x u) = User.remove_following x u.
Proof.
  unfold User.remove_following, UserDoc.with_following; simpl.
  rewrite remove_twice. reflexivity.
Qed.

Lemma remove_follower_idem (x : Id) (u : UserDoc.t) :
  User.remove_follower x (User.remove_follower x u) = User.remove_follower x u.
Proof.
  unfold User.remove_follower, UserDoc.with_followers; simpl.
  rewrite remove_twice. reflexivity.
Qed.

Lemma remove_followingBar_idem (x : Id) (u : UserDoc.t) :
  User.remove_followingBar x (User.remove_followingBar x u)
  = User.remove_followingBar x u.
Proof.
  unfold User.remove_followingBar, UserDoc.with_followingBars; simpl.
  rewrite remove_twice. reflexivity.
Qed.

Lemma bar_remove_follower_idem (x : Id) (b : BarDoc.t) :
  Bar.remove_follower x (Bar.remove_follower x b) = Bar.remove_follower x b.
Proof.
  unfold Bar.remove_follower, BarDoc.with_followers; simpl.
  rewrite remove_twice. reflexivity.
Qed.

Lemma remove_following_follower_comm (x y : Id) (u : UserDoc.t) :
  User.remove_following x (User.remove_follower y u)
  = User.remove_follower y (User.remove_following x u).
Proof. reflexivity. Qed.

(** Altering a key twice with an idempotent function. *)
Lemma alter_idem {A} (f : A → A) (k : Id) (m : gmap Id A) :
  (∀ x, f (f x) = f x) → alter f k (alter f k m) = alter f k m.
Proof.
  intros Hf. rewrite alter_alter_eq. apply alter_ext. intros x _. apply Hf.
Qed.

Lemma unfollow_both_idem (a b : Id) (us : gmap Id UserDoc.t) :
  unfollow_both a b (unfollow_both a b us) = unfollow_both a b us.
Proof.
  unfold unfollow_both.
  set (f := User.remove_following b). set (g := User.remove_follower a).
  assert (Hf : ∀ x, f (f x) = f x) by (intros; apply remove_following_idem).
  assert (Hg : ∀ x, g (g x) = g x) by (intros; apply remove_follower_idem).
  destruct (decide (a = b)) as [<-|Hne].
  - rewrite !alter_alter_eq. apply alter_ext. intros x _. simpl.
    subst f g. rewrite remove_following_follower_comm, remove_following_idem.
    rewrite <- remove_following_follower_comm, remove_follower_idem.
    reflexivity.
  - rewrite (alter_alter_ne g f (alter g b us) b a) by congruence.
    rewrite (alter_idem f a _ Hf), (alter_idem g b _ Hg). reflexivity.
Qed.

Lemma unfollow_both_absent (a b : Id) (us : gmap Id UserDoc.t) :
  (∀ ua, us !! a = Some ua → b ∉ UserDoc.following ua) →
  (∀ ub, us !! b = Some ub → a ∉ UserDoc.followers ub) →
  unfollow_both a b us = us.
Proof.
  intros Ha Hb. unfold unfollow_both.
  rewrite (alter_id (User.remove_follower a) us b).
  - apply alter_id. intros ua Hua. unfold User.remove_following.
    rewrite remove_absent by (apply Ha, Hua). apply with_following_same.
  - intros ub Hub. unfold User.remove_follower.
    rewrite remove_absent by (apply Hb, Hub). apply with_followers_same.
Qed.

Lemma db_eta (db : Db) : {| users := users db; bars := bars db |} = db.
Proof. destruct db; reflexivity. Qed.

(** C5. With [unfollowU] the unfollow of user [b] by [a] and
    [unfollowB] the unfollow of bar [barId] by [a]: running either a
    second time settles as the first run did and leaves the database of
    the first run; and when the relation is not there (for an existing
    bar), the run fulfils and the database is the one it started from. *)
Theorem unfollow_idempotent (a : UserDoc.t) (b barId : Id) (db : Db) :
  let unfollowU := UserCtrl._unfollowUser User.get User.unfollowUser a b in
  let unfollowB :=
    UserCtrl._unfollowBar User.unfollowBar Bar.get Bar.removeFollower
      (Some a) barId in
  unfollowU (snd (unfollowU db)) = unfollowU db
  ∧ unfollowB (snd (unfollowB db)) = unfollowB db
  ∧ (∀ ua,
       users db !! UserDoc._id a = Some ua →
       b ∉ UserDoc.following ua →
       (∀ ub, users db !! b = Some ub → UserDoc._id a ∉ UserDoc.followers ub) →
       unfollowU db = (Fulfilled ua, db))
  ∧ (∀ bar,
       bars db !! barId = Some bar →
       BarDoc._id bar = barId →
       UserDoc._id a ∉ BarDoc.followers bar →
       (∀ ua, users db !! UserDoc._id a = Some ua →
              barId ∉ UserDoc.followingBars ua) →
       unfollowB db = (Fulfilled (), db)).
Proof.
  intros unfollowU unfollowB. subst unfollowU unfollowB.
  repeat split.
  - rewrite !unfollowUser_run. cbv zeta.
    fold (unfollow_both (UserDoc._id a) b).
    set (us1 := unfollow_both (UserDoc._id a) b (users db)).
    assert (Hdb : ∀ r : Settled UserDoc.t,
              snd (r, set_users (unfollow_both (UserDoc._id a) b) db)
              = {| users := us1; bars := bars db |}) by reflexivity.
    assert (Hstep : set_users (unfollow_both (UserDoc._id a) b)
                      {| users := us1; bars := bars db |}
                    = {| users := us1; bars := bars db |}).
    { unfold set_users; simpl. subst us1. rewrite unfollow_both_idem. reflexivity. }
    change (users (set_users (unfollow_both (UserDoc._id a) b) db)) with us1.
    change (set_users (unfollow_both (UserDoc._id a) b) db)
      with {| users := us1; bars := bars db |}.
    destruct (us1 !! UserDoc._id a) eqn:E; simpl snd; rewrite Hstep; simpl;
      rewrite E; reflexivity.
  - rewrite (unfollowBar_run a barId db).
    destruct (bars db !! barId) as [bar|] eqn:E.
    + simpl snd. rewrite unfollowBar_run. simpl.
      rewrite lookup_alter. destruct (decide (BarDoc._id bar = barId)) as [Hk|Hk].
      * subst barId. rewrite E. simpl. unfold set_users, set_bars; simpl.
        rewrite !alter_idem
          by (intros; first [apply remove_followingBar_idem
                            | apply bar_remove_follower_idem]).
        reflexivity.
      * rewrite E. unfold set_users, set_bars; simpl.
        rewrite !alter_idem
          by (intros; first [apply remove_followingBar_idem
                            | apply bar_remove_follower_idem]).
        reflexivity.
    + simpl snd. rewrite unfollowBar_run, E. reflexivity.
  - intros ua Hua Hfollowing Hfollowers.
    rewrite unfollowUser_run. cbv zeta.
    fold (unfollow_both (UserDoc._id a) b).
    unfold set_users.
    rewrite unfollow_both_absent.
    + simpl. rewrite Hua, db_eta. reflexivity.
    + intros ua' Hua'. rewrite Hua in Hua'. injection Hua' as <-. exact Hfollowing.
    + exact Hfollowers.
  - intros bar Hbar Hid Hfollowers Hbars.
    rewrite unfollowBar_run, Hbar, Hid. unfold set_users, set_bars; simpl.
    rewrite (alter_id (User.remove_followingBar barId)).
    + rewrite (alter_id (Bar.remove_follower (UserDoc._id a))).
      * rewrite db_eta. reflexivity.
      * intros b' Hb'. rewrite Hbar in Hb'. injection Hb' as <-.
        unfold Bar.remove_follower.
        rewrite remove_absent by exact Hfollowers.
        apply bar_with_followers_same.
    + intros ua Hua. unfold User.remove_followingBar.
      rewrite remove_absent by (apply Hbars, Hua). apply with_followingBars_same.
Qed.

Lemma unfollow_idempotent_witness :
  UserCtrl._unfollowUser User.get User.unfollowUser Sample.alice "u2" Sample.db
    = (Fulfilled Sample.alice, Sample.db)
  ∧ UserCtrl._unfollowBar User.unfollowBar Bar.get Bar.removeFollower
      (Some Sample.alice) "b1" Sample.db
    = (Fulfilled (), Sample.db).
Proof.
  destruct (unfollow_idempotent Sample.alice "u2" "b1" Sample.db)
    as (_ & _ & HU & HB).
  split.
  - apply HU; [reflexivity | vm_compute; set_solver |].
    intros ub Hub. injection Hub as <-. vm_compute. set_solver.
  - apply (HB Sample.pub); [reflexivity | reflexivity | vm_compute; set_solver |].
    intros ua Hua. injection Hua as <-. vm_compute. set_solver.
Defined.

(** ** Listing *)

(** C6. Both list handlers call the model's [list] with a limit and a
    skip that are the number 50 when the limit parameter is absent, the
    number 0 when the skip parameter is absent, and the parameter as
    given when it is present; the page the model returns is the
    response. *)
Theorem list_defaults
    (User_list : JsVal → JsVal → Promise (list UserDoc.t))
    (Bar_list : JsVal → JsVal → Promise (list BarDoc.t))
    (req : Req.t) :
  ∃ limit skip : JsVal,
    (if absent (Query.limit (Req.query req))
     then limit = JNum 50 else limit = Query.limit (Req.query req))
    ∧ (if absent (Query.skip (Req.query req))
       then skip = JNum 0 else skip = Query.skip (Req.query req))
    ∧ UserCtrl.list User_list req
      = then_catch (User_list limit skip)
          (fun users => res_json req (JsonUsers users))
          (fun e => next req (Some e))
    ∧ BarCtrl.list Bar_list req
      = then_catch (Bar_list limit skip)
          (fun bars => res_json req (JsonBars bars))
          (fun e => next req (Some e)).
Proof.
  exists (default_to (Query.limit (Req.query req)) (JNum 50)),
         (default_to (Query.skip (Req.query req)) (JNum 0)).
  repeat split.
  - destruct (Query.limit (Req.query req)); reflexivity.
  - destruct (Query.skip (Req.query req)); reflexivity.
Qed.

(** Without parameters, a collection of sixty documents is answered
    with its first fifty. *)
Example list_defaults_sixty :
  let all := (fun n => UserDoc.with_username (JNum (inject_Z (Z.of_nat n))) Sample.alice)
               <$> seq 0 60 in
  out_answer (UserCtrl.list (Sample.page all) Sample.bar_req Sample.db)
  = Json (JsonUsers (take 50 all)).
Proof. vm_compute. reflexivity. Qed.

(** ** Reading one user *)

(** C7. The GET handler of one user writes nothing: the database and
    the document on the request are as before, so the stored user keeps
    its favTeams ids; and when the team lookup fulfils, the response is
    a plain copy of the user whose favTeams are the team objects found
    and whose other fields are the user's. *)
Theorem get_populates_copy
    (populateTeams : gset Id → Settled (list Team))
    (req : Req.t) (user : UserDoc.t) (db : Db)
    (Hload : Req.queryUser req = Some user)
    (Hstored : users db !! UserDoc._id user = Some user) :
  let out := UserCtrl.get populateTeams req db in
  out_db out = db
  ∧ users (out_db out) !! UserDoc._id user = Some user
  ∧ out_req out = req
  ∧ (∀ teams,
       populateTeams (UserDoc.favTeams user) = Fulfilled teams →
       out_answer out
       = Json (JsonUserObj
           {| UserObj._id := UserDoc._id user;
              UserObj.username := UserDoc.username user;
              UserObj.email := UserDoc.email user;
              UserObj.password := UserDoc.password user;
              UserObj.favTeams := FavTeams.Teams teams;
              UserObj.following := UserDoc.following user;
              UserObj.followers := UserDoc.followers user;
              UserObj.followingBars := UserDoc.followingBars user |})).
Proof.
  intros out. subst out.
  unfold UserCtrl.get, with_loaded, then_catch, settled. rewrite Hload.
  destruct (populateTeams (UserDoc.favTeams user)) as [teams|e]; simpl;
    repeat split; try assumption.
  - intros teams' [= <-]. reflexivity.
  - intros teams' [=].
Qed.

Lemma get_populates_copy_witness :
  let user := UserDoc.with_favTeams {["t1"]} Sample.alice in
  let db := set_users <["u1" := user]> Sample.db in
  let out := UserCtrl.get Sample.teams_of
               (Req.with_queryUser user (Sample.req JUndefined "")) db in
  out_db out = db
  ∧ ∃ o, out_answer out = Json (JsonUserObj o)
         ∧ UserObj.favTeams o
           = FavTeams.Teams [{| team_id := "t1"; team_name := "team t1" |}].
Proof.
  intros user db out.
  destruct (get_populates_copy Sample.teams_of
              (Req.with_queryUser user (Sample.req JUndefined "")) user db
              eq_refl eq_refl) as (Hdb & _ & _ & Hans).
  split; [exact Hdb |].
  eexists. split; [apply (Hans _ eq_refl) |]. reflexivity.
Defined.

(** ** Creating a bar *)

(** C8. The bar-create handler builds one document from the body: name
    and place id as given, no followers, and the point whose
    coordinates are the body's longitude followed by its latitude.  It
    hands that document to [save] without looking at the database: with
    any [save] the promise of [saveBar] is [save] of the document, and
    with the framework's [save], whenever the storage layer's own
    constraints let the write through, the document is in the
    collection under its id and is the response, whatever bars were
    there before; a write the storage layer turns down goes to [next]. *)
Theorem create_bar_point_and_persist
    (constraint : Db → BarDoc.t → option Error) (ObjectId : Db → Id)
    (req : Req.t) (db : Db) :
  let body := Req.body req in
  let doc :=
    {| BarDoc._id := ObjectId db;
       BarDoc.name := Body.name body;
       BarDoc.placeId := Body.placeId body;
       BarDoc.location :=
         Some {| GeoPoint.type := "Point";
                 GeoPoint.coordinates := [Body.longitude body; Body.latitude body] |};
       BarDoc.followers := ∅ |} in
  let out := BarCtrl.create (Mongoose.save_bar constraint) ObjectId req db in
  (∀ bar_save : BarDoc.t → Promise BarDoc.t,
     snd (BarCtrl.saveBar bar_save ObjectId body) db = bar_save doc db)
  ∧ (constraint db doc = None →
     out_answer out = Json (JsonBar doc)
     ∧ out_db out = set_bars <[ObjectId db := doc]> db
     ∧ bars (out_db out) !! ObjectId db = Some doc)
  ∧ (∀ e, constraint db doc = Some e →
          out_answer out = Next (Some e) ∧ out_db out = db).
Proof.
  intros body doc out. subst out.
  unfold BarCtrl.create, BarCtrl.saveBar, then_catch, Mongoose.save_bar.
  cbn beta iota zeta. fold body.
  set (point := GeoPoint.mk "Point" [Body.longitude body; Body.latitude body]).
  assert (Hdoc : Bar.new (ObjectId db) (Body.with_location point body) = doc)
    by reflexivity.
  rewrite Hdoc. split; [intros bar_save; reflexivity |].
  split.
  - intros ->. simpl. repeat split. apply lookup_insert_eq.
  - intros e ->. split; reflexivity.
Qed.

Lemma create_bar_point_and_persist_witness :
  let out := BarCtrl.create (Mongoose.save_bar Sample.no_constraint)
               (fun _ => "b2") Sample.bar_req Sample.db in
  (∃ b2, bars (out_db out) !! "b2" = Some b2
         ∧ BarDoc.location b2
           = Some (GeoPoint.mk "Point" [JNum (-73); JNum 40])
         ∧ BarDoc.name b2 = BarDoc.name Sample.pub
         ∧ BarDoc.placeId b2 = BarDoc.placeId Sample.pub)
  ∧ bars (out_db out) !! "b1" = Some Sample.pub.
Proof.
  destruct (create_bar_point_and_persist Sample.no_constraint (fun _ => "b2")
              Sample.bar_req Sample.db) as (_ & Hok & _).
  destruct (Hok eq_refl) as (_ & Hdb & Hdoc).
  split.
  - eexists. split; [exact Hdoc |]. repeat split.
  - cbv zeta. rewrite Hdb. reflexivity.
Defined.

(** ** Updating a user *)

(** C10. The update handler saves the loaded user and answers with it.
    With no username in the body, or a falsy one, the document saved
    and returned is the loaded user itself, so a user stored as loaded
    leaves the database as it was; with a username, the document saved
    and returned has that username and the loaded user's other
    fields. *)
Theorem update_touches_username_only
    (constraint : Db → UserDoc.t → option Error)
    (req : Req.t) (user : UserDoc.t) (db : Db)
    (Hload : Req.queryUser req = Some user) :
  let username := Body.username (Req.body req) in
  let renamed :=
    {| UserDoc._id := UserDoc._id user;
       UserDoc.username := username;
       UserDoc.email := UserDoc.email user;
       UserDoc.password := UserDoc.password user;
       UserDoc.favTeams := UserDoc.favTeams user;
       UserDoc.following := UserDoc.following user;
       UserDoc.followers := UserDoc.followers user;
       UserDoc.followingBars := UserDoc.followingBars user |} in
  let out := UserCtrl.update (Mongoose.save_user constraint) req db in
  (truthy username = false →
   constraint db user = None →
   out_answer out = Json (JsonUser user)
   ∧ out_req out = req
   ∧ out_db out = set_users <[UserDoc._id user := user]> db
   ∧ (users db !! UserDoc._id user = Some user → out_db out = db))
  ∧ (truthy username = true →
     constraint db renamed = None →
     out_answer out = Json (JsonUser renamed)
     ∧ Req.queryUser (out_req out) = Some renamed
     ∧ out_db out = set_users <[UserDoc._id user := renamed]> db).
Proof.
  intros username renamed out. subst out.
  unfold UserCtrl.update, with_loaded, then_catch, Mongoose.save_user.
  rewrite Hload. fold username. split; intros Ht Hc; rewrite Ht.
  - rewrite Hc. simpl. rewrite (with_queryUser_same req user Hload).
    repeat split.
    intros Hstored. unfold set_users. rewrite insert_id by exact Hstored.
    apply db_eta.
  - change (UserDoc.with_username username user) with renamed.
    rewrite Hc. repeat split.
Qed.

Lemma update_touches_username_only_witness :
  out_db (UserCtrl.update (Mongoose.save_user Sample.no_constraint)
            (Sample.req JUndefined "") Sample.db) = Sample.db
  ∧ out_answer
      (UserCtrl.update (Mongoose.save_user Sample.no_constraint)
         (Req.with_body
            (Body.mk (JStr "al") JUndefined "" "" ""
               JUndefined JUndefined JUndefined JUndefined None)
            (Sample.req JUndefined "")) Sample.db)
    = Json (JsonUser (UserDoc.with_username (JStr "al") Sample.alice)).
Proof.
  split.
  - destruct (update_touches_username_only Sample.no_constraint
                (Sample.req JUndefined "") Sample.alice Sample.db eq_refl)
      as [Hfalsy _].
    destruct (Hfalsy eq_refl eq_refl) as (_ & _ & _ & Hdb).
    apply Hdb. reflexivity.
  - destruct (update_touches_username_only Sample.no_constraint
                (Req.with_body
                   (Body.mk (JStr "al") JUndefined "" "" ""
                      JUndefined JUndefined JUndefined JUndefined None)
                   (Sample.req JUndefined "")) Sample.alice Sample.db eq_refl)
      as [_ Htruthy].
    destruct (Htruthy eq_refl eq_refl) as (Hans & _).
    rewrite Hans. reflexivity.
Defined.

(** * Further properties *)

(** ** Chains of middleware *)

Lemma chain_cons (m : Middleware) (stack : list Middleware) req db :
  chain (m :: stack) req db
  = match out_answer (m req db) with
    | Next None => chain stack (out_req (m req db)) (out_db (m req db))
    | _ => m req db
    end.
Proof. reflexivity. Qed.

Lemma chain_app (st1 st2 : list Middleware) req db :
  chain (st1 ++ st2) req db
  = match out_answer (chain st1 req db) with
    | Next None =>
        chain st2 (out_req (chain st1 req db)) (out_db (chain st1 req db))
    | _ => chain st1 req db
    end.
Proof.
  revert req db. induction st1 as [|m st1 IH]; intros req db.
  - reflexivity.
  - rewrite <- app_comm_cons, !chain_cons.
    destruct (out_answer (m req db)) as [p|[e|]|e|e] eqn:E;
      rewrite ?E; try reflexivity.
    apply IH.
Qed.

Lemma chain_guards (gs : list Guard) req db :
  chain (guard <$> gs) req db
  = {| out_req := req; out_answer := Next (first_error gs req); out_db := db |}.
Proof.
  induction gs as [|g gs IH]; [reflexivity |].
  rewrite fmap_cons, chain_cons. unfold guard at 1 2 3 4, next. simpl.
  destruct (g req); [reflexivity | apply IH].
Qed.

Lemma chain_params_rejected User_get (p : UserRoute.Path) id req db e db' :
  UserRoute.userId_of p = Some id →
  User_get id db = (Rejected e, db') →
  chain (UserRoute.params User_get p) req db
  = {| out_req := req; out_answer := Next (Some e); out_db := db' |}.
Proof.
  intros Hp Hget.
  destruct p; simpl in Hp; try discriminate; injection Hp as ->;
    simpl; unfold UserCtrl.load, then_catch; rewrite Hget; reflexivity.
Qed.

Lemma chain_params_fulfilled User_get (p : UserRoute.Path) id req db user db' :
  UserRoute.userId_of p = Some id →
  User_get id db = (Fulfilled user, db') →
  chain (UserRoute.params User_get p) req db
  = {| out_req := Req.with_queryUser user req; out_answer := Next None;
       out_db := db' |}.
Proof.
  intros Hp Hget.
  destruct p; simpl in Hp; try discriminate; injection Hp as ->;
    simpl; unfold UserCtrl.load, then_catch; rewrite Hget; reflexivity.
Qed.

(** ** The user routes *)

(** X1. On every route with the [:userId] parameter, when the user
    cannot be loaded the request ends with the error of the load given
    to [next]: no validation, authentication or handler of the route
    runs, whatever they would do, and the database is as the load left
    it. *)
Theorem route_unloadable_user_stops
    User_get User_list User_addFavTeam User_removeFavTeam user_save
    user_remove ObjectId populateTeams (msgFT msgUT : string)
    (validate_createUser validate_updateUser validate_updateFavTeams
       expressJwt checkUser : Guard)
    (signup : Signup.t)
    (m : UserRoute.Method) (p : UserRoute.Path) (id : Id)
    (req : Req.t) (db db' : Db) (e : Error)
    (Hroute : is_Some
       (UserRoute.handler User_list User_addFavTeam User_removeFavTeam
          user_save user_remove ObjectId populateTeams msgFT msgUT signup m p))
    (Hid : UserRoute.userId_of p = Some id)
    (Hget : User_get id db = (Rejected e, db')) :
  ∃ run,
    UserRoute.dispatch User_get User_list User_addFavTeam User_removeFavTeam
      user_save user_remove ObjectId populateTeams msgFT msgUT
      validate_createUser validate_updateUser validate_updateFavTeams
      expressJwt checkUser signup m p req = Some run
    ∧ run db = {| out_req := req; out_answer := Next (Some e); out_db := db' |}.
Proof.
  destruct Hroute as [h Hh]. unfold UserRoute.dispatch. rewrite Hh.
  eexists. split; [reflexivity |].
  rewrite chain_app, (chain_params_rejected User_get p id req db e db' Hid Hget).
  reflexivity.
Qed.

Lemma route_unloadable_user_stops_witness :
  ∃ run,
    UserRoute.dispatch User.get (Sample.page []) User.addFavTeam User.removeFavTeam
      (Mongoose.save_user Sample.no_constraint)
      (Mongoose.remove_user Sample.no_constraint) (fun _ => "u3")
      Sample.teams_of "fav failed" "unfav failed"
      Sample.allow Sample.allow Sample.allow Sample.allow Sample.allow
      Sample.signup UserRoute.DELETE (UserRoute.UserId "u9")
      Sample.bar_req = Some run
    ∧ run Sample.db
      = {| out_req := Sample.bar_req; out_answer := Next (Some NotFound);
           out_db := Sample.db |}.
Proof.
  apply (route_unloadable_user_stops User.get (Sample.page []) User.addFavTeam
           User.removeFavTeam (Mongoose.save_user Sample.no_constraint)
           (Mongoose.remove_user Sample.no_constraint) (fun _ => "u3")
           Sample.teams_of "fav failed" "unfav failed"
           Sample.allow Sample.allow Sample.allow Sample.allow Sample.allow
           Sample.signup UserRoute.DELETE (UserRoute.UserId "u9") "u9").
  - eexists; reflexivity.
  - reflexivity.
  - reflexivity.
Defined.

(** X2. On every route, once the parameter stage has let the request
    through, the first guard of the route that objects ends the
    request: its error goes to [next], the handler does not run, and
    the request and the database are as the parameter stage left
    them. *)
Theorem route_guard_objection_stops
    User_get User_list User_addFavTeam User_removeFavTeam user_save
    user_remove ObjectId populateTeams (msgFT msgUT : string)
    (validate_createUser validate_updateUser validate_updateFavTeams
       expressJwt checkUser : Guard)
    (signup : Signup.t)
    (m : UserRoute.Method) (p : UserRoute.Path)
    (req req1 : Req.t) (db db1 : Db) (e : Error)
    (Hroute : is_Some
       (UserRoute.handler User_list User_addFavTeam User_removeFavTeam
          user_save user_remove ObjectId populateTeams msgFT msgUT signup m p))
    (Hparams : chain (UserRoute.params User_get p) req db
               = {| out_req := req1; out_answer := Next None; out_db := db1 |})
    (Hguard : first_error
                (UserRoute.guards validate_createUser validate_updateUser
                   validate_updateFavTeams expressJwt checkUser m p) req1
              = Some e) :
  ∃ run,
    UserRoute.dispatch User_get User_list User_addFavTeam User_removeFavTeam
      user_save user_remove ObjectId populateTeams msgFT msgUT
      validate_createUser validate_updateUser validate_updateFavTeams
      expressJwt checkUser signup m p req = Some run
    ∧ run db = {| out_req := req1; out_answer := Next (Some e); out_db := db1 |}.
Proof.
  destruct Hroute as [h Hh]. unfold UserRoute.dispatch. rewrite Hh.
  eexists. split; [reflexivity |].
  rewrite chain_app, Hparams. simpl.
  rewrite chain_app, chain_guards, Hguard. reflexivity.
Qed.

Lemma route_guard_objection_stops_witness :
  ∃ run,
    UserRoute.dispatch User.get (Sample.page []) User.addFavTeam User.removeFavTeam
      (Mongoose.save_user Sample.no_constraint)
      (Mongoose.remove_user Sample.no_constraint) (fun _ => "u3")
      Sample.teams_of "fav failed" "unfav failed"
      Sample.allow Sample.allow Sample.allow Sample.allow Sample.deny
      Sample.signup UserRoute.DELETE (UserRoute.UserId "u1")
      Sample.bar_req = Some run
    ∧ run Sample.db
      = {| out_req := Req.with_queryUser Sample.alice Sample.bar_req;
           out_answer := Next (Some (APIError "Unauthorized" 401 true));
           out_db := Sample.db |}.
Proof.
  apply (route_guard_objection_stops User.get (Sample.page []) User.addFavTeam
           User.removeFavTeam (Mongoose.save_user Sample.no_constraint)
           (Mongoose.remove_user Sample.no_constraint) (fun _ => "u3")
           Sample.teams_of "fav failed" "unfav failed"
           Sample.allow Sample.allow Sample.allow Sample.allow Sample.deny
           Sample.signup UserRoute.DELETE (UserRoute.UserId "u1")).
  - eexists; reflexivity.
  - reflexivity.
  - reflexivity.
Defined.

(** X3. Every request the router dispatches is answered with a JSON
    response or an error given to [next]: no handler is left to throw
    on a missing user and none passes the request on unanswered.  The
    one other end is the rejection of the team lookup, which the
    single-user GET leaves unhandled. *)
Theorem route_always_answers
    User_get User_list User_addFavTeam User_removeFavTeam user_save
    user_remove ObjectId populateTeams (msgFT msgUT : string)
    (validate_createUser validate_updateUser validate_updateFavTeams
       expressJwt checkUser : Guard)
    (signup : Signup.t)
    (m : UserRoute.Method) (p : UserRoute.Path)
    (req : Req.t) (db : Db) (run : Handler)
    (Hroute :
       UserRoute.dispatch User_get User_list User_addFavTeam User_removeFavTeam
         user_save user_remove ObjectId populateTeams msgFT msgUT
         validate_createUser validate_updateUser validate_updateFavTeams
         expressJwt checkUser signup m p req = Some run) :
  match out_answer (run db) with
  | Json _ | Next (Some _) => True
  | Unhandled _ => m = UserRoute.GET ∧ ∃ id, p = UserRoute.UserId id
  | Thrown _ | Next None => False
  end.
Proof.
  unfold UserRoute.dispatch in Hroute.
  destruct p as [|id|id], m; simpl in Hroute; try discriminate;
    injection Hroute as <-;
    simpl;
    unfold UserCtrl.load, UserCtrl.list, UserCtrl.create, UserCtrl.get,
      UserCtrl.update, UserCtrl.remove, UserCtrl.updateFavTeams,
      with_loaded, then_catch, settled, guard, next, res_json, unhandled, throw;
    simpl;
    repeat match goal with
      | |- context [match ?x with _ => _ end] =>
          lazymatch x with
          | context [match _ with _ => _ end] => fail
          | _ => destruct x; simpl
          end
      end;
    try exact I; try (split; [reflexivity | eexists; reflexivity]).
Qed.

Lemma route_always_answers_witness :
  ∃ run,
    UserRoute.dispatch User.get (Sample.page []) User.addFavTeam User.removeFavTeam
      (Mongoose.save_user Sample.no_constraint)
      (Mongoose.remove_user Sample.no_constraint) (fun _ => "u3")
      Sample.teams_of "fav failed" "unfav failed"
      Sample.allow Sample.allow Sample.allow Sample.allow Sample.allow
      Sample.signup UserRoute.PUT (UserRoute.FavTeam "u1")
      (Sample.req (JStr "add") "t1") = Some run
    ∧ match out_answer (run Sample.db) with
      | Json _ | Next (Some _) => True
      | _ => False
      end.
Proof.
  eexists. split; [reflexivity |].
  pose proof (route_always_answers User.get (Sample.page []) User.addFavTeam
                User.removeFavTeam (Mongoose.save_user Sample.no_constraint)
                (Mongoose.remove_user Sample.no_constraint) (fun _ => "u3")
                Sample.teams_of "fav failed" "unfav failed"
                Sample.allow Sample.allow Sample.allow Sample.allow Sample.allow
                Sample.signup UserRoute.PUT (UserRoute.FavTeam "u1")
                (Sample.req (JStr "add") "t1") Sample.db _ eq_refl) as H.
  destruct (out_answer _) as [?|[?|]|?|?]; try exact I; try exact H.
  destruct H as [H _]. discriminate H.
Defined.

(** ** Handlers without a claim *)

(** X4. The promotions handler turns every failure into the same
    application error: a rejection of the model, whatever its error,
    and also a request without a loaded user, on which it starts no
    model operation.  The three plain read handlers throw in that last
    case instead. *)
Theorem promo_failures_always_wrapped
    (User_followingUsers User_followersUsers : Id → Promise (list UserDoc.t))
    (User_followingBars User_getFollowingBarsPromo : Id → Promise (list BarDoc.t))
    (msg : string) (req : Req.t) (db : Db) :
  let promo := UserCtrl.getFollowingBarsPromo User_getFollowingBarsPromo msg req db in
  let wrapped := Next (Some (APIError msg httpStatus.BAD_REQUEST true)) in
  (∀ user e db',
     Req.queryUser req = Some user →
     User_getFollowingBarsPromo (UserDoc._id user) db = (Rejected e, db') →
     promo = {| out_req := req; out_answer := wrapped; out_db := db' |})
  ∧ (∀ user bars db',
       Req.queryUser req = Some user →
       User_getFollowingBarsPromo (UserDoc._id user) db = (Fulfilled bars, db') →
       promo = {| out_req := req; out_answer := Json (JsonBars bars); out_db := db' |})
  ∧ (Req.queryUser req = None →
     promo = {| out_req := req; out_answer := wrapped; out_db := db |}
     ∧ UserCtrl.getFollowing User_followingUsers req db = throw req TypeError db
     ∧ UserCtrl.getFollowers User_followersUsers req db = throw req TypeError db
     ∧ UserCtrl.getFollowingBars User_followingBars req db = throw req TypeError db).
Proof.
  intros promo wrapped. subst promo wrapped.
  unfold UserCtrl.getFollowingBarsPromo, UserCtrl.getFollowing,
    UserCtrl.getFollowers, UserCtrl.getFollowingBars, with_loaded, then_catch.
  repeat split.
  - intros user e db' -> ->. reflexivity.
  - intros user bs db' -> ->. reflexivity.
  - rewrite H. reflexivity.
  - rewrite H. reflexivity.
  - rewrite H. reflexivity.
  - rewrite H. reflexivity.
Qed.

Lemma promo_failures_always_wrapped_witness :
  out_answer
    (UserCtrl.getFollowingBarsPromo (fun _ => reject NotFound) "promo failed"
       Sample.bar_req Sample.db)
  = Next (Some (APIError "promo failed" 400 true))
  ∧ out_answer
      (UserCtrl.getFollowingBarsPromo
         (fun _ => reject (OtherError "MongoNetworkError"))
         "promo failed" (Sample.req JUndefined "") Sample.db)
    = Next (Some (APIError "promo failed" 400 true)).
Proof.
  split.
  - destruct (promo_failures_always_wrapped
                (fun _ => resolve []) (fun _ => resolve []) (fun _ => resolve [])
                (fun _ => reject NotFound) "promo failed"
                Sample.bar_req Sample.db) as (_ & _ & Hnone).
    destruct (Hnone eq_refl) as (-> & _). reflexivity.
  - destruct (promo_failures_always_wrapped
                (fun _ => resolve []) (fun _ => resolve []) (fun _ => resolve [])
                (fun _ => reject (OtherError "MongoNetworkError"))
                "promo failed" (Sample.req JUndefined "") Sample.db)
      as (Hrej & _).
    rewrite (Hrej Sample.alice _ Sample.db eq_refl eq_refl). reflexivity.
Defined.

(** X5. When the save of an update is rejected, the error goes to
    [next] as it is, while the document on the request already carries
    the new username: the assignment is made before the save and is
    not taken back. *)
Theorem update_rejected_save_keeps_rename
    (user_save : UserDoc.t → Promise UserDoc.t)
    (req : Req.t) (user : UserDoc.t) (db db' : Db) (e : Error)
    (Hload : Req.queryUser req = Some user)
    (Hname : truthy (Body.username (Req.body req)) = true)
    (Hsave : user_save (UserDoc.with_username (Body.username (Req.body req)) user) db
             = (Rejected e, db')) :
  let out := UserCtrl.update user_save req db in
  out_answer out = Next (Some e)
  ∧ out_db out = db'
  ∧ Req.queryUser (out_req out)
    = Some (UserDoc.with_username (Body.username (Req.body req)) user)
  ∧ Req.body (out_req out) = Req.body req.
Proof.
  intros out. subst out.
  unfold UserCtrl.update, with_loaded, then_catch.
  rewrite Hload, Hname, Hsave. repeat split.
Qed.

Lemma update_rejected_save_keeps_rename_witness :
  let taken : Db → UserDoc.t → option Error :=
    fun _ _ => Some (OtherError "E11000 duplicate key") in
  let req := Req.with_body
               (Body.mk (JStr "bob") JUndefined "" "" ""
                  JUndefined JUndefined JUndefined JUndefined None)
               (Sample.req JUndefined "") in
  let out := UserCtrl.update (Mongoose.save_user taken) req Sample.db in
  out_db out = Sample.db
  ∧ Req.queryUser (out_req out)
    = Some (UserDoc.with_username (JStr "bob") Sample.alice).
Proof.
  intros taken req out.
  destruct (update_rejected_save_keeps_rename (Mongoose.save_user taken) req
              Sample.alice Sample.db Sample.db
              (OtherError "E11000 duplicate key") eq_refl eq_refl eq_refl)
    as (_ & Hdb & Hreq & _).
  split; [exact Hdb | exact Hreq].
Defined.

(** X6. The bar handler reads the bar before it writes anything.  When
    the bar cannot be loaded, the request ends with that error for
    either operation and no update is started; on the remove branch a
    rejection of the bar's update ends the request before the user's
    update, and a rejection of the user's update ends it after the bar
    has been written; without a loaded user a bar that is found leads
    to no write and the TypeError goes to [next]. *)
Theorem updateFollowingBars_bar_first
    (User_get : Id → Promise UserDoc.t)
    (user_followBar user_unfollowBar : UserDoc.t → Id → Promise unit)
    (Bar_get : Id → Promise BarDoc.t)
    (bar_addFollower bar_removeFollower : BarDoc.t → Id → Promise unit)
    (req : Req.t) (db : Db) :
  let run :=
    UserCtrl.updateFollowingBars User_get user_followBar user_unfollowBar
      Bar_get bar_addFollower bar_removeFollower req db in
  let barId := Body.barId (Req.body req) in
  let ended (e : Error) (db' : Db) :=
    {| out_req := req; out_answer := Next (Some e); out_db := db' |} in
  (∀ e db1, Bar_get barId db = (Rejected e, db1) → run = ended e db1)
  ∧ (∀ bar db1,
       Bar_get barId db = (Fulfilled bar, db1) →
       Req.queryUser req = None →
       run = ended TypeError db1)
  ∧ (∀ user bar db1 e db2,
       Req.queryUser req = Some user →
       Body.operation (Req.body req) ≠ JStr "add" →
       Bar_get barId db = (Fulfilled bar, db1) →
       bar_removeFollower bar (UserDoc._id user) db1 = (Rejected e, db2) →
       run = ended e db2)
  ∧ (∀ user bar db1 db2 e db3,
       Req.queryUser req = Some user →
       Body.operation (Req.body req) ≠ JStr "add" →
       Bar_get barId db = (Fulfilled bar, db1) →
       bar_removeFollower bar (UserDoc._id user) db1 = (Fulfilled (), db2) →
       user_unfollowBar user barId db2 = (Rejected e, db3) →
       run = ended e db3).
Proof.
  intros run barId ended. subst run ended.
  unfold UserCtrl.updateFollowingBars, UserCtrl._followBar, UserCtrl._unfollowBar.
  fold barId. repeat split.
  - intros e db1 Hget.
    destruct (strict_eq_str _ ADD);
      unfold then_catch, then_; rewrite try_catch_rethrow;
      unfold then_; rewrite Hget; reflexivity.
  - intros bar db1 Hget Hnone. rewrite Hnone.
    destruct (strict_eq_str _ ADD);
      unfold then_catch, then_; rewrite try_catch_rethrow;
      unfold then_; rewrite Hget; reflexivity.
  - intros user bar db1 e db2 Hload Hop Hget Hrm.
    apply strict_eq_str_false in Hop. unfold ADD. rewrite Hop, Hload.
    unfold then_catch, then_. rewrite try_catch_rethrow.
    unfold then_. rewrite Hget, Hrm. reflexivity.
  - intros user bar db1 db2 e db3 Hload Hop Hget Hrm Hun.
    apply strict_eq_str_false in Hop. unfold ADD. rewrite Hop, Hload.
    unfold then_catch, then_. rewrite try_catch_rethrow.
    unfold then_. rewrite Hget, Hrm, Hun. reflexivity.
Qed.

Lemma updateFollowingBars_bar_first_witness :
  let req := Req.with_queryUser Sample.bob_following
               (Sample.req (JStr "remove") "b1") in
  UserCtrl.updateFollowingBars User.get User.followBar Sample.down
    Bar.get Bar.addFollower Bar.removeFollower req Sample.db_followed
  = {| out_req := req;
       out_answer := Next (Some (OtherError "MongoNetworkError"));
       out_db := set_bars <["b1" := Sample.pub]> Sample.db_followed |}
  ∧ UserCtrl.updateFollowingBars User.get User.followBar User.unfollowBar
      Bar.get Bar.addFollower Bar.removeFollower
      (Sample.req (JStr "add") "b9") Sample.db
    = {| out_req := Sample.req (JStr "add") "b9";
         out_answer := Next (Some NotFound); out_db := Sample.db |}.
Proof.
  intros req. split.
  - destruct (updateFollowingBars_bar_first User.get User.followBar Sample.down
                Bar.get Bar.addFollower Bar.removeFollower
                req Sample.db_followed)
      as (_ & _ & _ & H).
    rewrite (H Sample.bob_following Sample.pub_followed Sample.db_followed
               (set_bars (alter (Bar.remove_follower "u2") "b1") Sample.db_followed)
               (OtherError "MongoNetworkError")
               (set_bars (alter (Bar.remove_follower "u2") "b1") Sample.db_followed)
               eq_refl ltac:(discriminate) eq_refl eq_refl eq_refl).
    vm_compute. reflexivity.
  - destruct (updateFollowingBars_bar_first User.get User.followBar User.unfollowBar
                Bar.get Bar.addFollower Bar.removeFollower
                (Sample.req (JStr "add") "b9") Sample.db) as (H & _).
    apply (H NotFound Sample.db). reflexivity.
Defined.

(** X7. A location in the body of a bar-create request never reaches
    the document: [saveBar] overwrites it with the point made of the
    body's longitude and latitude before the document is built, so the
    request is handled as the same request without a location; the
    body object of the request holds the computed point afterwards. *)
Theorem saveBar_overwrites_location
    (bar_save : BarDoc.t → Promise BarDoc.t) (ObjectId : Db → Id)
    (sent : GeoPoint.t) (req : Req.t) (db : Db) :
  let point :=
    GeoPoint.mk "Point"
      [Body.longitude (Req.body req); Body.latitude (Req.body req)] in
  let req_sent := Req.with_body (Body.with_location sent (Req.body req)) req in
  BarCtrl.saveBar bar_save ObjectId (Body.with_location sent (Req.body req))
  = BarCtrl.saveBar bar_save ObjectId (Req.body req)
  ∧ BarCtrl.create bar_save ObjectId req_sent db
    = BarCtrl.create bar_save ObjectId req db
  ∧ Body.location (Req.body (out_req (BarCtrl.create bar_save ObjectId req_sent db)))
    = Some point.
Proof.
  intros point req_sent. subst point req_sent.
  split; [reflexivity |]. split; [reflexivity |].
  unfold BarCtrl.create, BarCtrl.saveBar, then_catch. simpl.
  destruct (bar_save _ db) as [[b|e] db']; reflexivity.
Qed.

(** ** Deleting *)

(** X8. Deleting a user deletes that one document and answers with it:
    every other user and every bar is stored as before, so the follow
    sets that name the deleted user keep naming it. *)
Theorem remove_user_only_that_document
    (fault : Db → UserDoc.t → option Error)
    (req : Req.t) (user : UserDoc.t) (db : Db)
    (Hload : Req.queryUser req = Some user)
    (Hok : fault db user = None) :
  let out := UserCtrl.remove (Mongoose.remove_user fault) req db in
  out_answer out = Json (JsonUser user)
  ∧ users (out_db out) !! UserDoc._id user = None
  ∧ (∀ k other,
       k ≠ UserDoc._id user →
       users db !! k = Some other →
       users (out_db out) !! k = Some other)
  ∧ bars (out_db out) = bars db.
Proof.
  intros out. subst out.
  unfold UserCtrl.remove, with_loaded, then_catch, Mongoose.remove_user.
  rewrite Hload, Hok. simpl. repeat split.
  - apply lookup_delete_eq.
  - intros k other Hk Hother. rewrite lookup_delete_ne by congruence. exact Hother.
Qed.

Lemma remove_user_only_that_document_witness :
  let out := UserCtrl.remove (Mongoose.remove_user Sample.no_constraint)
               (Req.with_queryUser Sample.alice_followed (Sample.req JUndefined ""))
               Sample.db_followed in
  users (out_db out) !! "u1" = None
  ∧ (∃ bob, users (out_db out) !! "u2" = Some bob
            ∧ "u1" ∈ UserDoc.following bob).
Proof.
  intros out.
  destruct (remove_user_only_that_document Sample.no_constraint
              (Req.with_queryUser Sample.alice_followed (Sample.req JUndefined ""))
              Sample.alice_followed Sample.db_followed eq_refl eq_refl)
    as (_ & Hgone & Hothers & _).
  split; [exact Hgone |].
  exists Sample.bob_following. split.
  - apply Hothers; [discriminate | reflexivity].
  - vm_compute. set_solver.
Defined.

(** X9. Deleting a bar deletes that one document and answers with it:
    every other bar and every user is stored as before, so the users
    that follow the deleted bar keep its id in followingBars. *)
Theorem remove_bar_only_that_document
    (fault : Db → BarDoc.t → option Error)
    (req : Req.t) (bar : BarDoc.t) (db : Db)
    (Hload : Req.queryBar req = Some bar)
    (Hok : fault db bar = None) :
  let out := BarCtrl.remove (Mongoose.remove_bar fault) req db in
  out_answer out = Json (JsonBar bar)
  ∧ bars (out_db out) !! BarDoc._id bar = None
  ∧ (∀ k other,
       k ≠ BarDoc._id bar →
       bars db !! k = Some other →
       bars (out_db out) !! k = Some other)
  ∧ users (out_db out) = users db.
Proof.
  intros out. subst out.
  unfold BarCtrl.remove, with_loaded, then_catch, Mongoose.remove_bar.
  rewrite Hload, Hok. simpl. repeat split.
  - apply lookup_delete_eq.
  - intros k other Hk Hother. rewrite lookup_delete_ne by congruence. exact Hother.
Qed.

Lemma remove_bar_only_that_document_witness :
  let out := BarCtrl.remove (Mongoose.remove_bar Sample.no_constraint)
               (Req.with_queryBar Sample.pub_followed Sample.bar_req)
               Sample.db_followed in
  bars (out_db out) !! "b1" = None
  ∧ (∃ bob, users (out_db out) !! "u2" = Some bob
            ∧ "b1" ∈ UserDoc.followingBars bob).
Proof.
  intros out.
  destruct (remove_bar_only_that_document Sample.no_constraint
              (Req.with_queryBar Sample.pub_followed Sample.bar_req)
              Sample.pub_followed Sample.db_followed eq_refl eq_refl)
    as (_ & Hgone & _ & Husers).
  split; [exact Hgone |].
  exists Sample.bob_following. split.
  - subst out. rewrite Husers. reflexivity.
  - vm_compute. set_solver.
Defined.

(** ** Creating a user *)

(** X10. The user-create handler builds the document from the body's
    username, email and password alone and hands it to [save] without
    reading the database.  When the storage layer lets the write
    through, the document is stored under its new id and is the
    response, and every other user and every bar is as before; a write
    the storage layer turns down goes to [next] as it is and changes
    nothing. *)
Theorem create_user_persists
    (constraint : Db → UserDoc.t → option Error) (ObjectId : Db → Id)
    (signup : Signup.t) (req : Req.t) (db : Db) :
  let doc :=
    {| UserDoc._id := ObjectId db;
       UserDoc.username := Body.username (Req.body req);
       UserDoc.email := Signup.email signup;
       UserDoc.password := Signup.password signup;
       UserDoc.favTeams := ∅;
       UserDoc.following := ∅;
       UserDoc.followers := ∅;
       UserDoc.followingBars := ∅ |} in
  let out := UserCtrl.create (Mongoose.save_user constraint) ObjectId signup req db in
  (constraint db doc = None →
   out_answer out = Json (JsonUser doc)
   ∧ users (out_db out) !! ObjectId db = Some doc
   ∧ (∀ k, k ≠ ObjectId db → users (out_db out) !! k = users db !! k)
   ∧ bars (out_db out) = bars db)
  ∧ (∀ e, constraint db doc = Some e →
          out = {| out_req := req; out_answer := Next (Some e); out_db := db |}).
Proof.
  intros doc out. subst out.
  unfold UserCtrl.create, then_catch, Mongoose.save_user.
  change (User.new _ _ _ _) with doc. split.
  - intros ->. simpl. repeat split.
    + apply lookup_insert_eq.
    + intros k Hk. apply lookup_insert_ne. congruence.
  - intros e ->. reflexivity.
Qed.

Lemma create_user_persists_witness :
  let out := UserCtrl.create (Mongoose.save_user Sample.no_constraint)
               (fun _ => "u3") Sample.signup
               (Req.with_body
                  (Body.mk (JStr "alice") JUndefined "" "" ""
                     JUndefined JUndefined JUndefined JUndefined None)
                  Sample.bar_req) Sample.db in
  (∃ u3, users (out_db out) !! "u3" = Some u3
         ∧ UserDoc.username u3 = UserDoc.username Sample.alice)
  ∧ users (out_db out) !! "u1" = Some Sample.alice.
Proof.
  intros out.
  destruct (create_user_persists Sample.no_constraint (fun _ => "u3")
              Sample.signup
              (Req.with_body
                 (Body.mk (JStr "alice") JUndefined "" "" ""
                    JUndefined JUndefined JUndefined JUndefined None)
                 Sample.bar_req) Sample.db) as [Hok _].
  destruct (Hok eq_refl) as (_ & Hdoc & Hothers & _).
  split.
  - eexists. split; [exact Hdoc | reflexivity].
  - subst out. rewrite Hothers by discriminate. reflexivity.
Defined.

(** ** A rename seen by the next read *)

Lemma User_get_stored (id : Id) (user : UserDoc.t) (db : Db) :
  users db !! id = Some user → User.get id db = (Fulfilled user, db).
Proof. intros H. unfold User.get. rewrite H. reflexivity. Qed.

(** X11. For a user stored under its id: a PUT on [/:userId] with a
    truthy username that passes validation, authentication and the
    storage layer's constraints, followed by a GET on the same path,
    is answered by the GET with the new username, the user's other
    fields, and the teams the lookup finds for its favTeams. *)
Theorem route_put_then_get
    User_list User_addFavTeam User_removeFavTeam user_remove ObjectId
    (constraint : Db → UserDoc.t → option Error)
    (populateTeams : gset Id → Settled (list Team))
    (msgFT msgUT : string)
    (validate_createUser validate_updateUser validate_updateFavTeams
       expressJwt checkUser : Guard)
    (signup : Signup.t)
    (id : Id) (user : UserDoc.t) (teams : list Team)
    (req req' : Req.t) (db : Db)
    (Hstored : users db !! id = Some user)
    (Hid : UserDoc._id user = id)
    (Hname : truthy (Body.username (Req.body req)) = true)
    (Hvalid : validate_updateUser (Req.with_queryUser user req) = None)
    (Hjwt : expressJwt (Req.with_queryUser user req) = None)
    (Hcheck : checkUser (Req.with_queryUser user req) = None)
    (Hconstraint :
       constraint db (UserDoc.with_username (Body.username (Req.body req)) user)
       = None)
    (Hteams : populateTeams (UserDoc.favTeams user) = Fulfilled teams) :
  let dispatch :=
    UserRoute.dispatch User.get User_list User_addFavTeam User_removeFavTeam
      (Mongoose.save_user constraint) user_remove ObjectId populateTeams
      msgFT msgUT validate_createUser validate_updateUser
      validate_updateFavTeams expressJwt checkUser signup in
  ∃ put get,
    dispatch UserRoute.PUT (UserRoute.UserId id) req = Some put
    ∧ dispatch UserRoute.GET (UserRoute.UserId id) req' = Some get
    ∧ out_answer (get (out_db (put db)))
      = Json (JsonUserObj
          {| UserObj._id := id;
             UserObj.username := Body.username (Req.body req);
             UserObj.email := UserDoc.email user;
             UserObj.password := UserDoc.password user;
             UserObj.favTeams := FavTeams.Teams teams;
             UserObj.following := UserDoc.following user;
             UserObj.followers := UserDoc.followers user;
             UserObj.followingBars := UserDoc.followingBars user |}).
Proof.
  intros dispatch. subst dispatch id. unfold UserRoute.dispatch.
  cbn [UserRoute.handler].
  eexists _, _. split; [reflexivity |]. split; [reflexivity |].
  pose (renamed := UserDoc.with_username (Body.username (Req.body req)) user).
  fold renamed in Hconstraint.
  change (UserRoute.params User.get (UserRoute.UserId (UserDoc._id user)) ++
          (guard <$> UserRoute.guards validate_createUser validate_updateUser
                       validate_updateFavTeams expressJwt checkUser
                       UserRoute.PUT (UserRoute.UserId (UserDoc._id user))) ++
          [UserCtrl.update (Mongoose.save_user constraint)])%list
    with [(λ r, UserCtrl.load User.get r (UserDoc._id user)); guard validate_updateUser;
          guard expressJwt; guard checkUser;
          UserCtrl.update (Mongoose.save_user constraint)].
  change (UserRoute.params User.get (UserRoute.UserId (UserDoc._id user)) ++
          (guard <$> UserRoute.guards validate_createUser validate_updateUser
                       validate_updateFavTeams expressJwt checkUser
                       UserRoute.GET (UserRoute.UserId (UserDoc._id user))) ++
          [UserCtrl.get populateTeams])%list
    with [(λ r, UserCtrl.load User.get r (UserDoc._id user)); UserCtrl.get populateTeams].
  assert (Hput :
    out_db
      (chain
         [(λ r, UserCtrl.load User.get r (UserDoc._id user)); guard validate_updateUser;
          guard expressJwt; guard checkUser;
          UserCtrl.update (Mongoose.save_user constraint)] req db)
    = set_users <[UserDoc._id user := renamed]> db).
  { rewrite chain_cons. unfold UserCtrl.load, then_catch.
    rewrite (User_get_stored _ user db Hstored). simpl.
    rewrite Hvalid, Hjwt, Hcheck. simpl.
    unfold UserCtrl.update, with_loaded, then_catch, Mongoose.save_user. simpl.
    rewrite Hname. fold renamed. rewrite Hconstraint. reflexivity. }
  rewrite Hput. rewrite chain_cons. unfold UserCtrl.load, then_catch.
  rewrite (User_get_stored (UserDoc._id user) renamed
             (set_users <[UserDoc._id user := renamed]> db))
    by apply lookup_insert_eq.
  simpl. unfold UserCtrl.get, with_loaded, then_catch, settled. simpl.
  rewrite Hteams. reflexivity.
Qed.

Lemma route_put_then_get_witness :
  ∃ put get,
    UserRoute.dispatch User.get (Sample.page []) User.addFavTeam User.removeFavTeam
      (Mongoose.save_user Sample.no_constraint)
      (Mongoose.remove_user Sample.no_constraint) (fun _ => "u3")
      Sample.teams_of "fav failed" "unfav failed"
      Sample.allow Sample.allow Sample.allow Sample.allow Sample.allow
      Sample.signup UserRoute.PUT (UserRoute.UserId "u1")
      (Req.with_body
         (Body.mk (JStr "al") JUndefined "" "" ""
            JUndefined JUndefined JUndefined JUndefined None)
         Sample.bar_req) = Some put
    ∧ UserRoute.dispatch User.get (Sample.page []) User.addFavTeam User.removeFavTeam
        (Mongoose.save_user Sample.no_constraint)
        (Mongoose.remove_user Sample.no_constraint) (fun _ => "u3")
        Sample.teams_of "fav failed" "unfav failed"
        Sample.allow Sample.allow Sample.allow Sample.allow Sample.allow
        Sample.signup UserRoute.GET (UserRoute.UserId "u1") Sample.bar_req
      = Some get
    ∧ ∃ o, out_answer (get (out_db (put Sample.db))) = Json (JsonUserObj o)
           ∧ UserObj.username o = JStr "al".
Proof.
  destruct (route_put_then_get (Sample.page []) User.addFavTeam User.removeFavTeam
              (Mongoose.remove_user Sample.no_constraint) (fun _ => "u3")
              Sample.no_constraint Sample.teams_of "fav failed" "unfav failed"
              Sample.allow Sample.allow Sample.allow Sample.allow Sample.allow
              Sample.signup "u1" Sample.alice []
              (Req.with_body
                 (Body.mk (JStr "al") JUndefined "" "" ""
                    JUndefined JUndefined JUndefined JUndefined None)
                 Sample.bar_req)
              Sample.bar_req Sample.db
              eq_refl eq_refl eq_refl eq_refl eq_refl eq_refl eq_refl eq_refl)
    as (put & get & Hput & Hget & Hans).
  exists put, get. split; [exact Hput |]. split; [exact Hget |].
  eexists. split; [exact Hans | reflexivity].
Defined.
